(** * abb_robot_client: the RWS 2.0 client and its in-memory mock

    A shallow embedding of [src/abb_robot_client/rws2.py] (class [RWS2] and
    the pydantic records next to it) and of [src/abb_robot_client/rws_mock.py]
    (class [RWSMock]), with the properties of the specification stated over
    them.

    Layout:
    - [Py]: the Python values the client handles (decoded JSON, exceptions,
      the built-ins it calls on them);
    - [Http]: one request/response exchange of [requests.Session];
    - [Records]: the pydantic records and their validation;
    - [Rws2]: the client, in a state-and-exception monad over an arbitrary
      transport, with a log of the requests it has sent;
    - [Mock]: [RWSMock];
    - the mastership arbiter of the specification, read off the request log;
    - [Bench]: transports to run examples on and sample responses;
    - the properties. *)

From Stdlib Require Import ZArith List String Ascii Bool Lia.
From stdpp Require Import gmap strings pretty.
Import ListNotations.
Set Warnings "-register-all".
Open Scope string_scope.
Open Scope list_scope.

(** ** Python values *)

Module Py.

(** What [response.json()] returns. Python's [None] is [JNull]; a [dict] keeps
    its insertion order, so it is an association list (first binding of a key
    is the live one). RWS sends numbers as decimal strings; JSON numbers that
    are not integers are outside this model. *)
Inductive json : Type :=
| JNull
| JBool (b : bool)
| JInt (z : Z)
| JStr (s : string)
| JArr (items : list json)
| JObj (fields : list (string * json)).

(** The exception classes the modelled code can raise. *)
Inductive PyExc : Type :=
| TypeError
| KeyError (key : json)
| IndexError
| ValueError
| AttributeError
| UnboundLocalError
| OverflowError
| RuntimeError (msg : string)
| ValidationError                        (* pydantic_core.ValidationError *)
| RequestException                       (* requests.RequestException and subclasses *)
| ABBException (msg : string) (code : Z) (* abb_robot_client.rws.ABBException *)
| Exception (msg : string).              (* a bare [raise Exception(msg)] *)

Definition exc_class (e : PyExc) : string :=
  match e with
  | TypeError => "TypeError"
  | KeyError _ => "KeyError"
  | IndexError => "IndexError"
  | ValueError => "ValueError"
  | AttributeError => "AttributeError"
  | UnboundLocalError => "UnboundLocalError"
  | OverflowError => "OverflowError"
  | RuntimeError _ => "RuntimeError"
  | ValidationError => "ValidationError"
  | RequestException => "RequestException"
  | ABBException _ _ => "ABBException"
  | Exception _ => "Exception"
  end.

(** A computation that returns or raises. *)
Inductive result (A : Type) : Type :=
| Ok (a : A)
| Raise (e : PyExc).
Arguments Ok {A} a.
Arguments Raise {A} e.

Definition rbind {A B} (r : result A) (k : A -> result B) : result B :=
  match r with
  | Ok a => k a
  | Raise e => Raise e
  end.

Definition is_ok {A} (r : result A) : bool :=
  match r with Ok _ => true | Raise _ => false end.

Definition of_option {A} (e : PyExc) (o : option A) : result A :=
  match o with Some a => Ok a | None => Raise e end.

(** *** Ordered dictionaries *)

Definition dict (V : Type) : Type := list (string * V).

Fixpoint dict_get {V} (d : dict V) (k : string) : option V :=
  match d with
  | [] => None
  | (k', v) :: d' => if String.eqb k' k then Some v else dict_get d' k
  end.

Definition dict_in {V} (k : string) (d : dict V) : bool :=
  match dict_get d k with Some _ => true | None => false end.

(** [d[k] = v]: an existing key keeps its position, a new one goes last. *)
Fixpoint dict_set {V} (d : dict V) (k : string) (v : V) : dict V :=
  match d with
  | [] => [(k, v)]
  | (k', v') :: d' =>
      if String.eqb k' k then (k', v) :: d' else (k', v') :: dict_set d' k v
  end.

Definition dict_keys {V} (d : dict V) : list string := map fst d.
Definition dict_values {V} (d : dict V) : list V := map snd d.

(** [x in l] for a list of strings. *)
Fixpoint str_in (x : string) (l : list string) : bool :=
  match l with
  | [] => false
  | y :: l' => String.eqb y x || str_in x l'
  end.

(** *** Subscripting, membership, iteration *)

(** [o[k]] for a string [k]: only a dict can be subscripted by a string. *)
Definition getitem (o : json) (k : string) : result json :=
  match o with
  | JObj d => of_option (KeyError (JStr k)) (dict_get d k)
  | _ => Raise TypeError
  end.

Definition char_str (c : ascii) : json := JStr (String c EmptyString).

(** [o[0]]. *)
Definition getitem0 (o : json) : result json :=
  match o with
  | JArr (x :: _) => Ok x
  | JArr [] => Raise IndexError
  | JStr (String c _) => Ok (char_str c)
  | JStr EmptyString => Raise IndexError
  | JObj _ => Raise (KeyError (JInt 0))    (* dicts decoded from JSON have string keys *)
  | _ => Raise TypeError
  end.

(** [needle in hay] for two strings: substring test. *)
Fixpoint is_prefix (p s : string) : bool :=
  match p, s with
  | EmptyString, _ => true
  | String a p', String b s' => Ascii.eqb a b && is_prefix p' s'
  | String _ _, EmptyString => false
  end.

Fixpoint is_substring (needle hay : string) : bool :=
  is_prefix needle hay ||
  match hay with
  | EmptyString => false
  | String _ hay' => is_substring needle hay'
  end.

Definition is_str (k : string) (j : json) : bool :=
  match j with JStr s => String.eqb s k | _ => false end.

(** [k in o] for a string [k]. *)
Definition contains (k : string) (o : json) : result bool :=
  match o with
  | JObj d => Ok (dict_in k d)
  | JArr l => Ok (existsb (is_str k) l)
  | JStr s => Ok (is_substring k s)
  | _ => Raise TypeError
  end.

Fixpoint chars (s : string) : list json :=
  match s with
  | EmptyString => []
  | String c s' => char_str c :: chars s'
  end.

(** [for x in o]. *)
Definition iter (o : json) : result (list json) :=
  match o with
  | JArr l => Ok l
  | JObj d => Ok (map JStr (dict_keys d))
  | JStr s => Ok (chars s)
  | _ => Raise TypeError
  end.

(** *** [str.split("/")[-1]] *)

Fixpoint last_segment_from (acc : string) (s : string) : string :=
  match s with
  | EmptyString => acc
  | String c s' =>
      if Ascii.eqb c "/" then last_segment_from s' s' else last_segment_from acc s'
  end.

(** The text after the last ["/"] (the whole string when there is none). *)
Definition last_segment (s : string) : string := last_segment_from s s.

(** [o.split("/")[-1]]: [split] exists on [str] only. *)
Definition split_last (o : json) : result string :=
  match o with
  | JStr s => Ok (last_segment s)
  | _ => Raise AttributeError
  end.

(** *** [int(...)] *)

(** White space for [int] on an ASCII string: tab to carriage return, and
    the space. *)
Definition is_space (c : ascii) : bool :=
  let n := nat_of_ascii c in
  ((9 <=? n) && (n <=? 13) || (n =? 32))%nat.

Definition digit_value (c : ascii) : option Z :=
  let n := nat_of_ascii c in
  if ((48 <=? n) && (n <=? 57))%nat then Some (Z.of_nat n - 48)%Z else None.

Fixpoint lstrip (cs : list ascii) : list ascii :=
  match cs with
  | c :: cs' => if is_space c then lstrip cs' else cs
  | [] => []
  end.

Definition strip (cs : list ascii) : list ascii := rev (lstrip (rev (lstrip cs))).

(** Decimal digits, with single underscores allowed between digits. *)
Fixpoint digits (acc : Z) (after_digit : bool) (cs : list ascii) : option Z :=
  match cs with
  | [] => if after_digit then Some acc else None
  | c :: cs' =>
      match digit_value c with
      | Some d => digits (10 * acc + d)%Z true cs'
      | None =>
          if Ascii.eqb c "_" && after_digit then digits acc false cs' else None
      end
  end.

Definition is_digit (c : ascii) : bool :=
  match digit_value c with Some _ => true | None => false end.

(** [sys.int_info.default_max_str_digits]: a string with more digits is
    refused. *)
Definition max_str_digits : Z := 4300.

Definition within_digit_limit (cs : list ascii) : bool :=
  (Z.of_nat (length (List.filter is_digit cs)) <=? max_str_digits)%Z.

(** [int(s)] for a string, base 10, on ASCII input: surrounding white space,
    an optional sign, digits, no more than the digit limit allows. [None] is
    [ValueError]. *)
Definition int_of_str (s : string) : option Z :=
  let cs := strip (list_ascii_of_string s) in
  if negb (within_digit_limit cs) then None
  else match cs with
       | "+"%char :: cs' => digits 0 false cs'
       | "-"%char :: cs' => option_map Z.opp (digits 0 false cs')
       | _ => digits 0 false cs
       end.

Definition py_int (j : json) : result Z :=
  match j with
  | JInt z => Ok z
  | JBool b => Ok (if b then 1 else 0)%Z
  | JStr s => of_option ValueError (int_of_str s)
  | _ => Raise TypeError
  end.

(** [str(z)] for an integer. *)
Definition str_of_int (z : Z) : string := pretty z.

End Py.
Export Py.

Notation "'let?' x ':=' r 'in' k" := (rbind r (fun x => k))
  (at level 10, x name, r at level 100, k at level 200).


(** ** One HTTP exchange

    [requests.Session.get] / [.post] either raise a [RequestException]
    (connection refused, DNS, timeout) or return a response. The URL recorded
    in a request is the part after [base_url + "/"]. *)

Module Http.

Inductive Verb : Type := GET | POST.

Record Request : Type := {
  verb : Verb;
  url : string;
  data : option (dict string)     (* the form payload of a POST *)
}.

(** [response.content], by what the client can tell apart: empty, a JSON
    document, or bytes that [response.json()] cannot decode. *)
Inductive Content : Type :=
| NoContent
| JsonDoc (j : json)
| NotJson.

Record Response : Type := {
  status_code : Z;
  content : Content
}.

Inductive Outcome : Type :=
| Failed                    (* the call raised a [RequestException] *)
| Replied (r : Response).

Definition get_request (u : string) : Request :=
  {| verb := GET; url := u; data := None |}.

Definition post_request (u : string) (p : option (dict string)) : Request :=
  {| verb := POST; url := u; data := p |}.

(** [response.raise_for_status()] raises [HTTPError] for 4xx and 5xx. *)
Definition raise_for_status (r : Response) : bool :=
  (400 <=? status_code r)%Z && (status_code r <? 600)%Z.

(** [response.json()]; its [JSONDecodeError] is a [RequestException]. *)
Definition response_json (r : Response) : result json :=
  match content r with
  | JsonDoc j => Ok j
  | _ => Raise RequestException
  end.

Definition has_content (r : Response) : bool :=
  match content r with NoContent => false | _ => true end.

End Http.
Export Http.

(** ** The pydantic records of rws2.py *)

Module Records.

Record TaskState : Type := {
  name : string;
  type : string;
  taskstate : string;
  excstate : string;
  active : bool;
  motiontask : bool
}.

Inductive SubscriptionResourceType : Type :=
| ControllerState   (* 1 *)
| OperationalMode   (* 2 *)
| ExecutionState    (* 3 *)
| PersVar           (* 4 *)
| IpcQueue          (* 5 *)
| Elog              (* 6 *)
| Signal.           (* 7 *)

Inductive SubscriptionResourcePriority : Type :=
| Low      (* 0 *)
| Medium   (* 1 *)
| High.    (* 2 *)

Record SubscriptionResourceRequest : Type := {
  resource_type : SubscriptionResourceType;
  priority : SubscriptionResourcePriority;
  param : json
}.

Definition SubscriptionResourceType_value (t : SubscriptionResourceType) : Z :=
  match t with
  | ControllerState => 1 | OperationalMode => 2 | ExecutionState => 3
  | PersVar => 4 | IpcQueue => 5 | Elog => 6 | Signal => 7
  end.

Definition SubscriptionResourcePriority_value (p : SubscriptionResourcePriority) : Z :=
  match p with Low => 0 | Medium => 1 | High => 2 end.

(** [IntEnum] lookup by value, as pydantic does for an enum-typed field. *)
Definition SubscriptionResourceType_of (z : Z) : option SubscriptionResourceType :=
  match z with
  | 1 => Some ControllerState | 2 => Some OperationalMode
  | 3 => Some ExecutionState | 4 => Some PersVar | 5 => Some IpcQueue
  | 6 => Some Elog | 7 => Some Signal
  | _ => None
  end%Z.

Definition SubscriptionResourcePriority_of (z : Z) : option SubscriptionResourcePriority :=
  match z with
  | 0 => Some Low | 1 => Some Medium | 2 => Some High
  | _ => None
  end%Z.

(** [SubscriptionResourceRequest(resource_type=rt, priority=pr, param=p)]:
    the class declares three fields and no validator, so pydantic checks each
    field against its own type and nothing else. Construction takes no
    session and sends nothing. *)
Definition SubscriptionResourceRequest_init (rt pr : Z) (p : json)
  : result SubscriptionResourceRequest :=
  match SubscriptionResourceType_of rt, SubscriptionResourcePriority_of pr with
  | Some t, Some q => Ok {| resource_type := t; priority := q; param := p |}
  | _, _ => Raise ValidationError
  end.

(** *** Field validation (pydantic, lax mode) *)

Definition validate_str (j : json) : option string :=
  match j with JStr s => Some s | _ => None end.

Definition lower (c : ascii) : ascii :=
  let n := nat_of_ascii c in
  if ((65 <=? n) && (n <=? 90))%nat then ascii_of_nat (n + 32) else c.

Fixpoint lowercase (s : string) : string :=
  match s with
  | EmptyString => EmptyString
  | String c s' => String (lower c) (lowercase s')
  end.

Definition bool_of_str (s : string) : option bool :=
  let l := lowercase s in
  if str_in l ["1"; "on"; "t"; "true"; "y"; "yes"] then Some true
  else if str_in l ["0"; "off"; "f"; "false"; "n"; "no"] then Some false
  else None.

Definition validate_bool (j : json) : option bool :=
  match j with
  | JBool b => Some b
  | JInt 0 => Some false
  | JInt 1 => Some true
  | JStr s => bool_of_str s
  | _ => None
  end.

Definition field {A} (d : dict json) (k : string) (v : json -> option A) : result A :=
  match dict_get d k with
  | Some j => of_option ValidationError (v j)
  | None => Raise ValidationError
  end.

(** [TaskState.model_validate(s)]: six required fields, extra keys ignored. *)
Definition TaskState_model_validate (s : json) : result TaskState :=
  match s with
  | JObj d =>
      let? n := field d "name" validate_str in
      let? t := field d "type" validate_str in
      let? ts := field d "taskstate" validate_str in
      let? es := field d "excstate" validate_str in
      let? a := field d "active" validate_bool in
      let? m := field d "motiontask" validate_bool in
      Ok {| name := n; type := t; taskstate := ts; excstate := es;
            active := a; motiontask := m |}
  | _ => Raise ValidationError
  end.

End Records.
Export Records.

(** ** The client: class RWS2 *)

Module Rws2.

(** The event-log and geometry records. [Datetime] is what
    [datetime.datetime.strptime] returns and [NdArray] what [np.array] returns;
    both stay abstract. *)
Record EventLogEntry (Datetime : Type) : Type := {
  seqnum : Z;
  msgtype : Z;
  code : Z;
  tstamp : Datetime;
  args : list json;
  title : string;
  desc : string;
  conseqs : string;
  causes : string;
  actions : string
}.
Arguments seqnum {Datetime}.
Arguments msgtype {Datetime}.
Arguments code {Datetime}.
Arguments tstamp {Datetime}.
Arguments args {Datetime}.
Arguments title {Datetime}.
Arguments desc {Datetime}.
Arguments conseqs {Datetime}.
Arguments causes {Datetime}.
Arguments actions {Datetime}.

(** [abb_robot_client.rws.RobTarget], a named tuple of four arrays. *)
Record RobTarget (NdArray : Type) : Type := {
  trans : NdArray;
  rot : NdArray;
  robconf : NdArray;
  extax : NdArray
}.
Arguments trans {NdArray}.
Arguments rot {NdArray}.
Arguments robconf {NdArray}.
Arguments extax {NdArray}.

Section Client.

(** The controller and the network, seen from the session: any state [W], any
    reaction to a request. *)
Variable W : Type.
Variable transport : Request -> W -> Outcome * W.

(** Library calls kept abstract:
    [strptime s] is [datetime.datetime.strptime(s, '%Y-%m-%d T %H:%M:%S')]
    on a string ([None] for its [ValueError]), and
    [np_array l] is [np.array(l, dtype=np.float64)]. *)
Variable Datetime : Type.
Variable strptime : string -> option Datetime.
Variable NdArray : Type.
Variable np_array : list json -> result NdArray.

(** The state threaded through the client: the world behind the session and
    the requests sent so far, oldest first. The log is a ghost: the client
    never reads it. *)
Record St : Type := {
  world : W;
  sent : list Request
}.

Definition M (A : Type) : Type := St -> result A * St.

Definition ret {A} (a : A) : M A := fun st => (Ok a, st).
Definition raise {A} (e : PyExc) : M A := fun st => (Raise e, st).
Definition bind {A B} (m : M A) (k : A -> M B) : M B :=
  fun st =>
    match m st with
    | (Ok a, st') => k a st'
    | (Raise e, st') => (Raise e, st')
    end.
Definition lift {A} (r : result A) : M A := fun st => (r, st).

Notation "'do' x <- m ;; k" := (bind m (fun x => k))
  (at level 10, x name, m at level 99, k at level 200).

(** [self._session.get(...)] / [self._session.post(...)]. *)
Definition send (r : Request) : St -> Outcome * St :=
  fun st =>
    let (o, w') := transport r (world st) in
    (o, {| world := w'; sent := sent st ++ [r] |}).

(** [for x in l: body(x)]. *)
Fixpoint for_each {A} (l : list A) (body : A -> M unit) : M unit :=
  match l with
  | [] => ret tt
  | x :: l' => do _ <- body x ;; for_each l' body
  end.

(** *** Transport helpers *)

(** [_do_get]: every [RequestException] (a failed call, a 4xx/5xx status, a
    body that is not JSON) is printed and turned into [None]. *)
Definition _do_get (relative_url : string) : M json :=
  fun st =>
    let (o, st') := send (get_request relative_url) st in
    match o with
    | Failed => (Ok JNull, st')
    | Replied response =>
        if raise_for_status response then (Ok JNull, st')
        else match response_json response with
             | Ok j => (Ok j, st')
             | Raise _ => (Ok JNull, st')
             end
    end.

(** [_do_post]. In the handler [response] is unbound when the call itself
    failed, so reading [response.status_code] raises [UnboundLocalError]. *)
Definition _do_post (relative_url : string) (payload : option (dict string)) : M json :=
  fun st =>
    let (o, st') := send (post_request relative_url payload) st in
    match o with
    | Failed => (Raise UnboundLocalError, st')
    | Replied response =>
        let handler :=
          if (status_code response =? 403)%Z
          then (Raise (ABBException "Mastership required for this operation" 403), st')
          else (Ok JNull, st') in
        if raise_for_status response then handler
        else if has_content response then
          match response_json response with
          | Ok j => (Ok j, st')
          | Raise _ => handler
          end
        else (Ok JNull, st')
    end.

(** *** Mastership *)

(** The response is stored and never looked at; a failed call propagates. *)
Definition mastership_post (u : string) : M unit :=
  fun st =>
    let (o, st') := send (post_request u None) st in
    match o with
    | Failed => (Raise RequestException, st')
    | Replied _ => (Ok tt, st')
    end.

Definition request_mastership : M unit := mastership_post "rw/mastership/request".
Definition release_mastership : M unit := mastership_post "rw/mastership/release".

(** *** Tasks *)

Definition activate_task (task : string) : M unit :=
  do _ <- _do_post "rw/rapid/tasks/activate?mastership=implicit"
                   (Some [("task", task)]) ;;
  ret tt.

Definition deactivate_task (task : string) : M unit :=
  do _ <- _do_post ("rw/rapid/tasks/" +:+ task +:+ "/deactivate?mastership=implicit")
                   (Some [("task", task)]) ;;
  ret tt.

(** [s.get('name', '<unknown>')] in the handler of [get_tasks]: an attribute
    of [dict] only. *)
Definition dict_get_method (s : json) : result unit :=
  match s with
  | JObj _ => Ok tt
  | _ => Raise AttributeError
  end.

(** One turn of the loop of [get_tasks], on the entry [s] and the dict [o]
    built so far. When validation succeeds, [s["name"]] is the validated
    name. *)
Definition get_tasks_entry (o : dict TaskState) (s : json) : result (dict TaskState) :=
  let? has_name := contains "name" s in
  if negb has_name then Ok o
  else match TaskState_model_validate s with
       | Ok t => Ok (dict_set o (name t) t)
       | Raise _ => let? _ := dict_get_method s in Ok o
       end.

Fixpoint get_tasks_loop (o : dict TaskState) (resources : list json)
  : result (dict TaskState) :=
  match resources with
  | [] => Ok o
  | s :: rest => let? o' := get_tasks_entry o s in get_tasks_loop o' rest
  end.

Definition is_None (j : json) : bool :=
  match j with JNull => true | _ => false end.

Definition get_tasks : M (dict TaskState) :=
  do res_json <- _do_get "rw/rapid/tasks" ;;
  if is_None res_json then ret []
  else lift (let? e := getitem res_json "_embedded" in
             let? resources := getitem e "resources" in
             let? l := iter resources in
             get_tasks_loop [] l).

(** The first requested task that [get_tasks] did not report. *)
Definition unknown_task (tasks : list string) (rob_tasks : dict TaskState)
  : option string :=
  find (fun t => negb (dict_in t rob_tasks)) tasks.

(** The body of the activation loop of [start]. *)
Definition start_step (tasks : list string) (rob_task : TaskState) : M unit :=
  if negb (motiontask rob_task) then ret tt
  else if str_in (name rob_task) tasks then
    (if negb (active rob_task) then activate_task (name rob_task) else ret tt)
  else
    (if active rob_task then deactivate_task (name rob_task) else ret tt).

Definition start (cycle : string) (tasks : list string) : M unit :=
  do rob_tasks <- get_tasks ;;
  match unknown_task tasks rob_tasks with
  | Some t => raise (Exception ("Cannot start unknown task " +:+ t))
  | None =>
      do _ <- for_each (dict_values rob_tasks) (start_step tasks) ;;
      do _ <- _do_post "rw/rapid/execution/start?mastership=implicit"
        (Some [("regain", "continue"); ("execmode", "continue"); ("cycle", cycle);
               ("condition", "none"); ("stopatbp", "disabled");
               ("alltaskbytsp", "true")]) ;;
      ret tt
  end.

(** *** IO signals *)

(** [if network and unit]: both strings non-empty. *)
Definition truthy (s : string) : bool := negb (String.eqb s "").

Definition signal_url (signal network unit : string) : string :=
  if truthy network && truthy unit
  then "rw/iosystem/signals/" +:+ network +:+ "/" +:+ unit +:+ "/" +:+ signal
  else "rw/iosystem/signals/" +:+ signal.

(** [res_json["_embedded"]["resources"][0]["lvalue"]]. *)
Definition signal_lvalue (res_json : json) : result json :=
  let? e := getitem res_json "_embedded" in
  let? r := getitem e "resources" in
  let? r0 := getitem0 r in
  getitem r0 "lvalue".

Definition get_io (signal network unit : string) : M json :=
  do res_json <- _do_get (signal_url signal network unit) ;;
  lift (signal_lvalue res_json).

Definition get_digital_io (signal network unit : string) : M Z :=
  do value <- get_io signal network unit ;;
  lift (py_int value).

(** *** RAPID variables *)

(** [f"{task}"]: [None] formats as the text [None]. *)
Definition fmt_opt (task : option string) : string :=
  match task with Some t => t | None => "None" end.

Definition rapid_get_url (var : string) (task : option string) : string :=
  "rw/rapid/symbol/RAPID/" +:+ fmt_opt task +:+ "/" +:+ var +:+ "/data?mastership=implicit".

Definition rapid_set_url (var : string) (task : option string) : string :=
  let var1 := match task with
              | Some t => t +:+ "/" +:+ var
              | None => var
              end in
  "rw/rapid/symbol/RAPID/" +:+ var1 +:+ "/data?mastership=implicit".

Definition get_rapid_variable (var : string) (task : option string) : M json :=
  do res_json <- _do_get (rapid_get_url var task) ;;
  lift (let? s := getitem res_json "state" in
        let? s0 := getitem0 s in
        getitem s0 "value").

Definition set_rapid_variable (var value : string) (task : option string) : M unit :=
  do _ <- request_mastership ;;
  do _ <- _do_post (rapid_set_url var task) (Some [("value", value)]) ;;
  release_mastership.

(** *** Event log *)

(** [[f(x) for x in l]], stopping at the first exception. *)
Fixpoint map_result {A B} (f : A -> result B) (l : list A) : result (list B) :=
  match l with
  | [] => Ok []
  | x :: l' => let? y := f x in let? ys := map_result f l' in Ok (y :: ys)
  end.

Definition py_strptime (j : json) : result Datetime :=
  match j with
  | JStr s => of_option ValueError (strptime s)
  | _ => Raise TypeError
  end.

(** The [argv] part of an entry: the [value] of each element, when the key is
    there. *)
Definition event_log_args (log_entry : json) : result (list json) :=
  let? has_argv := contains "argv" log_entry in
  if has_argv then
    let? argv := getitem log_entry "argv" in
    let? l := iter argv in
    map_result (fun arg => getitem arg "value") l
  else Ok [].

Definition str_field (j : json) : result string :=
  of_option ValidationError (validate_str j).

(** One turn of the loop of [read_event_log]: [entry_dict] is built key by
    key, then [nargs] is computed (and not used again), the arguments are
    collected, and [EventLogEntry.model_validate] checks the five text
    fields. *)
Definition parse_log_entry (log_entry : json) : result (EventLogEntry Datetime) :=
  let? t := getitem log_entry "_title" in
  let? last := split_last t in
  let? seqnum_ := py_int (JStr last) in
  let? mt := getitem log_entry "msgtype" in
  let? msgtype_ := py_int mt in
  let? c := getitem log_entry "code" in
  let? code_ := py_int c in
  let? ts := getitem log_entry "tstamp" in
  let? tstamp_ := py_strptime ts in
  let? title_ := getitem log_entry "title" in
  let? desc_ := getitem log_entry "desc" in
  let? conseqs_ := getitem log_entry "conseqs" in
  let? causes_ := getitem log_entry "causes" in
  let? actions_ := getitem log_entry "actions" in
  let? argc := getitem log_entry "argc" in
  let? nargs := py_int argc in
  let? args_ := event_log_args log_entry in
  let? title_s := str_field title_ in
  let? desc_s := str_field desc_ in
  let? conseqs_s := str_field conseqs_ in
  let? causes_s := str_field causes_ in
  let? actions_s := str_field actions_ in
  Ok {| seqnum := seqnum_; msgtype := msgtype_; code := code_;
        tstamp := tstamp_; args := args_; title := title_s; desc := desc_s;
        conseqs := conseqs_s; causes := causes_s; actions := actions_s |}.

Definition read_event_log (elog : Z) : M (list (EventLogEntry Datetime)) :=
  do res_json <- _do_get ("rw/elog/" +:+ str_of_int elog +:+ "/?lang=en") ;;
  lift (let? e := getitem res_json "_embedded" in
        let? log := getitem e "resources" in
        let? l := iter log in
        map_result parse_log_entry l).

(** *** Geometry *)

(** [np.array([state[k1], state[k2], ...], dtype=np.float64)]: the keys are
    read first, left to right, then the list is converted. *)
Definition np_group (state : json) (keys : list string) : result NdArray :=
  let? vals := map_result (getitem state) keys in
  np_array vals.

Definition robtarget_url (mechunit tool wobj coordinate : string) : string :=
  "rw/motionsystem/mechunits/" +:+ mechunit +:+ "/robtarget?tool=" +:+ tool +:+
  "&wobj=" +:+ wobj +:+ "&coordinate=" +:+ coordinate.

Definition trans_keys : list string := ["x"; "y"; "z"].
Definition rot_keys : list string := ["q1"; "q2"; "q3"; "q4"].
Definition robconf_keys : list string := ["cf1"; "cf4"; "cf6"; "cfx"].
Definition extax_keys : list string :=
  ["eax_a"; "eax_b"; "eax_c"; "eax_d"; "eax_e"; "eax_f"].

Definition robtarget_of_state (state : json) : result (RobTarget NdArray) :=
  let? trans_ := np_group state trans_keys in
  let? rot_ := np_group state rot_keys in
  let? robconf_ := np_group state robconf_keys in
  let? extax_ := np_group state extax_keys in
  Ok {| trans := trans_; rot := rot_; robconf := robconf_; extax := extax_ |}.

Definition get_robtarget (mechunit tool wobj coordinate : string)
  : M (RobTarget NdArray) :=
  do res_json <- _do_get (robtarget_url mechunit tool wobj coordinate) ;;
  lift (let? s := getitem res_json "state" in
        let? state := getitem0 s in
        robtarget_of_state state).

End Client.

Arguments world {W}.
Arguments sent {W}.

End Rws2.

(** ** The in-memory mock: class RWSMock *)

Module Mock.

Record _TaskState : Type := {
  name : string;
  _type_val : string;
  taskstate : string;
  excstate : string;
  active : bool;
  motiontask : bool
}.

Definition set_active (b : bool) (t : _TaskState) : _TaskState :=
  {| name := name t; _type_val := _type_val t; taskstate := taskstate t;
     excstate := excstate t; active := b; motiontask := motiontask t |}.

(** The attributes of an [RWSMock] that the modelled methods touch ([_aio],
    [_files] and [_speedratio] are left out). [_tasks] is iterated, so it
    keeps its order; [_dio] and [_rapid] are only read and written by key. *)
Record RWSMock : Type := {
  _exec_state : string;
  _controller_state : string;
  _opmode : string;
  _tasks : dict _TaskState;
  _dio : gmap string Z;
  _rapid : gmap string string
}.

Definition with_tasks (ts : dict _TaskState) (m : RWSMock) : RWSMock :=
  {| _exec_state := _exec_state m; _controller_state := _controller_state m;
     _opmode := _opmode m; _tasks := ts; _dio := _dio m; _rapid := _rapid m |}.

Definition with_exec_state (e : string) (m : RWSMock) : RWSMock :=
  {| _exec_state := e; _controller_state := _controller_state m;
     _opmode := _opmode m; _tasks := _tasks m; _dio := _dio m; _rapid := _rapid m |}.

Definition with_dio (d : gmap string Z) (m : RWSMock) : RWSMock :=
  {| _exec_state := _exec_state m; _controller_state := _controller_state m;
     _opmode := _opmode m; _tasks := _tasks m; _dio := d; _rapid := _rapid m |}.

Definition with_rapid (r : gmap string string) (m : RWSMock) : RWSMock :=
  {| _exec_state := _exec_state m; _controller_state := _controller_state m;
     _opmode := _opmode m; _tasks := _tasks m; _dio := _dio m; _rapid := r |}.

(** [RWSMock()]. *)
Definition init : RWSMock :=
  {| _exec_state := "stopped";
     _controller_state := "motoroff";
     _opmode := "AUTO";
     _tasks := [("T_ROB1", {| name := "T_ROB1"; _type_val := "NORMAL";
                              taskstate := "ready"; excstate := "stopped";
                              active := true; motiontask := true |})];
     _dio := <["Auto" := 1%Z]> (<["motion_program_error" := 0%Z]>
               (<["motion_program_log_motion" := 0%Z]> ∅));
     _rapid := <["T_ROB1/MOTION_PROGRAM_CMD_MOVEL" := "3"]>
                 (<["T_ROB1/test_num" := "0"]> ∅) |}.

(** *** Execution *)

Definition start (cycle : string) (tasks : option (list string)) (m : RWSMock)
  : result RWSMock :=
  if negb (String.eqb (_controller_state m) "motoron")
  then Raise (RuntimeError "Cannot start execution: controller is not in 'motoron' state")
  else Ok (with_exec_state "running" m).

(** *** Tasks *)

Definition get_tasks (m : RWSMock) : dict _TaskState := _tasks m.

(** [d[k].attr = ...] on an existing key. *)
Fixpoint dict_update {V} (d : dict V) (k : string) (f : V -> V) : dict V :=
  match d with
  | [] => []
  | (k', v) :: d' =>
      if String.eqb k' k then (k', f v) :: d' else (k', v) :: dict_update d' k f
  end.

Definition activate_task (task : string) (m : RWSMock) : RWSMock :=
  if dict_in task (_tasks m)
  then with_tasks (dict_update (_tasks m) task (set_active true)) m
  else m.

Definition deactivate_task (task : string) (m : RWSMock) : RWSMock :=
  if dict_in task (_tasks m)
  then with_tasks (dict_update (_tasks m) task (set_active false)) m
  else m.

(** *** IO *)

(** [network] and [unit] are accepted and not used. *)
Definition get_digital_io (signal network unit : string) (m : RWSMock) : Z :=
  default 0%Z (_dio m !! signal).

Definition set_digital_io (signal : string) (value : Z) (network unit : string)
    (m : RWSMock) : RWSMock :=
  with_dio (<[signal := if (value =? 0)%Z then 0%Z else 1%Z]> (_dio m)) m.

(** *** RAPID variables *)

Section Values.

(** Floats stay abstract: [str_of_float x] is [str(x)] and [float_of_str s] is
    [float(s)] ([None] for its [ValueError]). *)
Variable F : Type.
Variable str_of_float : F -> string.
Variable float_of_str : string -> option F.

(** What [set_rapid_variable] accepts: [str | int | float]. *)
Inductive PyVal : Type :=
| VStr (s : string)
| VInt (z : Z)
| VFloat (x : F).

Definition py_str (v : PyVal) : string :=
  match v with
  | VStr s => s
  | VInt z => str_of_int z
  | VFloat x => str_of_float x
  end.

(** [if task]: neither [None] nor the empty string. *)
Definition _qualify_var (var : string) (task : option string) : string :=
  match task with
  | Some t => if String.eqb t "" then var else t +:+ "/" +:+ var
  | None => var
  end.

Definition get_rapid_variable (var : string) (task : option string) (m : RWSMock)
  : string :=
  default "0" (_rapid m !! _qualify_var var task).

Definition get_rapid_variable_num (var : string) (task : option string) (m : RWSMock)
  : result F :=
  of_option ValueError (float_of_str (get_rapid_variable var task m)).

Definition set_rapid_variable (var : string) (value : PyVal) (task : option string)
    (m : RWSMock) : RWSMock :=
  with_rapid (<[_qualify_var var task := py_str value]> (_rapid m)) m.

Definition set_rapid_variable_num (var : string) (val : F) (task : option string)
    (m : RWSMock) : RWSMock :=
  set_rapid_variable var (VStr (str_of_float val)) task m.

End Values.

Arguments VStr {F} s.
Arguments VInt {F} z.
Arguments VFloat {F} x.

End Mock.

(** ** The mastership arbiter *)

(** Modelled from the spec: the arbiter of section 4.2, which the client keeps
    nowhere. It has two states; [request()] moves to [Held], [release()] moves
    to [Released]. Here it is read off the requests the client has sent. *)
Inductive Mastership : Type := Released | Held.

Definition arbiter_step (s : Mastership) (r : Request) : Mastership :=
  match verb r with
  | POST =>
      if String.eqb (url r) "rw/mastership/request" then Held
      else if String.eqb (url r) "rw/mastership/release" then Released
      else s
  | GET => s
  end.

Definition arbiter (log : list Request) : Mastership :=
  fold_left arbiter_step log Released.

(** ** Transports to run the client on *)

Module Bench.

(** *** A scripted transport

    The world is the list of outcomes still to come; each request takes the
    next one. An exhausted script behaves like a dead connection. *)
Definition scripted (r : Request) (w : list Outcome) : Outcome * list Outcome :=
  match w with
  | o :: w' => (o, w')
  | [] => (Failed, [])
  end.

Definition script (l : list Outcome) : Rws2.St (list Outcome) :=
  {| Rws2.world := l; Rws2.sent := [] |}.

Definition reply (status : Z) (c : Content) : Outcome :=
  Replied {| status_code := status; content := c |}.

(** The collection envelope [{"_embedded": {"resources": [...]}}]. *)
Definition embedded_resources (l : list json) : json :=
  JObj [("_embedded", JObj [("resources", JArr l)])].

(** The singleton envelope [{"state": [s]}]. *)
Definition state0 (s : json) : json := JObj [("state", JArr [s])].

(** *** Stand-ins for the library calls, for running examples

    Each accepts only inputs that the library call accepts as well, and gives
    up elsewhere. *)

Definition two_digits (a b : ascii) : option Z :=
  match digit_value a, digit_value b with
  | Some x, Some y => Some (10 * x + y)%Z
  | _, _ => None
  end.

Definition in_range (lo hi : Z) (o : option Z) : option Z :=
  match o with
  | Some z => if (lo <=? z)%Z && (z <=? hi)%Z then Some z else None
  | None => None
  end.

(** [strptime(s, '%Y-%m-%d T %H:%M:%S')] on the zero-padded form
    [YYYY-MM-DD T HH:MM:SS], days up to 28. *)
Definition strptime_padded (s : string) : option (Z * Z * Z * Z * Z * Z) :=
  match list_ascii_of_string s with
  | [y1; y2; y3; y4; "-"; m1; m2; "-"; d1; d2; " "; "T"; " ";
     h1; h2; ":"; n1; n2; ":"; s1; s2]%char =>
      match two_digits y1 y2, two_digits y3 y4,
            in_range 1 12 (two_digits m1 m2), in_range 1 28 (two_digits d1 d2),
            in_range 0 23 (two_digits h1 h2), in_range 0 59 (two_digits n1 n2),
            in_range 0 59 (two_digits s1 s2) with
      | Some c, Some y, Some mo, Some d, Some h, Some mi, Some se =>
          if (0 <? 100 * c + y)%Z
          then Some (100 * c + y, mo, d, h, mi, se)%Z
          else None
      | _, _, _, _, _, _, _ => None
      end
  | _ => None
  end.

(** [np.array(l, dtype=np.float64)] on integers and integer strings. *)
Definition np_array_int (l : list json) : result (list Z) :=
  Rws2.map_result (fun j => match j with
                            | JInt z => Ok z
                            | JStr s => of_option ValueError (int_of_str s)
                            | _ => Raise TypeError
                            end) l.

(** [str(x)] and [float(s)] on floats with an integer value, written [n.0]. *)
Definition str_of_float_int (z : Z) : string := str_of_int z +:+ ".0".

Fixpoint drop_dot_zero (cs : list ascii) : list ascii :=
  match cs with
  | ["."; "0"]%char => []
  | c :: cs' => c :: drop_dot_zero cs'
  | [] => []
  end.

Definition float_of_str_int (s : string) : option Z :=
  int_of_str (string_of_list_ascii (drop_dot_zero (list_ascii_of_string s))).

(** [float(z)] on an integer, a float with an integer value being written as
    that integer: the nearest value with 53 significant bits, ties going to
    the even one, and [None] (its [OverflowError]) from [2 ** 1024] on. *)
Definition float_of_int_rounded (z : Z) : option Z :=
  let a := Z.abs z in
  let dropped := (Z.log2 a + 1 - 53)%Z in
  if (dropped <=? 0)%Z then Some z
  else
    let q := Z.shiftr a dropped in
    let rest := (a - Z.shiftl q dropped)%Z in
    let half := Z.shiftl 1 (dropped - 1) in
    let up := (half <? rest)%Z || ((rest =? half)%Z && Z.odd q) in
    let r := Z.shiftl (if up then q + 1 else q)%Z dropped in
    if (2 ^ 1024 <=? r)%Z then None else Some (Z.sgn z * r)%Z.

(** *** A controller that keeps RAPID symbols by URL

    For running examples: a POST that carries a [value] field stores it under
    the URL it was sent to, a GET of a URL that holds a value is answered with
    [{"state": [{"value": v}]}], any other GET with status 404. Every POST is
    answered 204, the mastership requests included. *)
Definition symbol_store (r : Request) (w : dict string) : Outcome * dict string :=
  match verb r with
  | GET =>
      match dict_get w (url r) with
      | Some v => (reply 200 (JsonDoc (state0 (JObj [("value", JStr v)]))), w)
      | None => (reply 404 NotJson, w)
      end
  | POST =>
      match data r with
      | Some d =>
          match dict_get d "value" with
          | Some v => (reply 204 NoContent, dict_set w (url r) v)
          | None => (reply 204 NoContent, w)
          end
      | None => (reply 204 NoContent, w)
      end
  end.

Definition empty_store : Rws2.St (dict string) :=
  {| Rws2.world := []; Rws2.sent := [] |}.

(** The task table of a mock is well formed when every key is the name of its
    task. *)
Definition keyed_by_name (ts : dict Mock._TaskState) : Prop :=
  Forall (fun kv => fst kv = Mock.name (snd kv)) ts.

End Bench.

Import Rws2.

(** ** Vocabulary of the statements *)

(** What [_do_get] hands back for an outcome of the GET. *)
Definition get_value (o : Outcome) : json :=
  match o with
  | Failed => JNull
  | Replied r =>
      if raise_for_status r then JNull
      else match content r with JsonDoc j => j | _ => JNull end
  end.

(** The entries of a collection that pass [TaskState.model_validate], in
    order, and the dict that holds them under their names. *)
Definition valid_task (d : dict json) : option TaskState :=
  match TaskState_model_validate (JObj d) with
  | Ok t => Some t
  | Raise _ => None
  end.

Definition valid_tasks (entries : list (dict json)) : list TaskState :=
  omap valid_task entries.

Definition task_table (l : list TaskState) : dict TaskState :=
  fold_left (fun o t => dict_set o (name t) t) l [].

(** The four groups of a robtarget, in the order [get_robtarget] reads them. *)
Definition robtarget_groups : list (list string) :=
  [trans_keys; rot_keys; robconf_keys; extax_keys].

(** The dict [d] holds every key of [keys], with the values [vals]. *)
Definition holds_keys (d : dict json) (keys : list string) (vals : list json) : Prop :=
  Forall2 (fun k v => dict_get d k = Some v) keys vals.

(** The group [keys] parses: [d] holds its keys and [np.array] converts their
    values to [a]. *)
Definition group_converts {NdArray} (np_array : list json -> result NdArray)
    (d : dict json) (keys : list string) (a : NdArray) : Prop :=
  exists vals, holds_keys d keys vals /\ np_array vals = Ok a.


(** An entry of the task collection that is no JSON container: [null], a
    truth value or a number. *)
Definition not_a_container (j : json) : Prop :=
  j = JNull \/ (exists b, j = JBool b) \/ (exists z, j = JInt z).

(** ** Sample responses and controllers *)

(** A well-formed entry and one whose [active] is not a truth value. *)
Definition entry_T_ROB1 : dict json :=
  [("_type", JStr "rap-task-li"); ("name", JStr "T_ROB1"); ("type", JStr "normal");
   ("taskstate", JStr "started"); ("excstate", JStr "ready");
   ("active", JStr "On"); ("motiontask", JStr "TRUE")].

Definition entry_broken : dict json :=
  [("name", JStr "T_ROB2"); ("type", JStr "normal");
   ("taskstate", JStr "started"); ("excstate", JStr "ready");
   ("active", JStr "maybe"); ("motiontask", JStr "TRUE")].

(** An entry that declares two arguments and carries one. *)
Definition entry_argc2_argv1 : dict json :=
  [("_title", JStr "/rw/elog/0/17"); ("msgtype", JStr "1"); ("code", JStr "10011");
   ("tstamp", JStr "2024-01-02 T 03:04:05"); ("title", JStr "Motors ON state");
   ("desc", JStr "The system is in the Motors ON state."); ("conseqs", JStr "");
   ("causes", JStr ""); ("actions", JStr ""); ("argc", JStr "2");
   ("argv", JArr [JObj [("type", JStr "string"); ("value", JStr "T_ROB1")]])].

Definition parsed_argc2_argv1 : EventLogEntry (Z * Z * Z * Z * Z * Z) :=
  {| seqnum := 17; msgtype := 1; code := 10011;
     tstamp := (2024, 1, 2, 3, 4, 5)%Z; args := [JStr "T_ROB1"];
     title := "Motors ON state"; desc := "The system is in the Motors ON state.";
     conseqs := ""; causes := ""; actions := "" |}.




(** Two robots and a background task, as the controller lists them: T_ROB1
    idle, T_ROB2 active, T_LOG no motion task. *)
Definition task_entry (n : string) (is_active is_motion : bool) : dict json :=
  [("_type", JStr "rap-task-li"); ("name", JStr n); ("type", JStr "normal");
   ("taskstate", JStr "started"); ("excstate", JStr "ready");
   ("active", JStr (if is_active then "On" else "Off"));
   ("motiontask", JStr (if is_motion then "TRUE" else "FALSE"))].

Definition parsed_task (n : string) (is_active is_motion : bool) : TaskState :=
  {| name := n; type := "normal"; taskstate := "started"; excstate := "ready";
     active := is_active; motiontask := is_motion |}.

Definition tasks_two_robots : Outcome :=
  Bench.reply 200
    (JsonDoc (Bench.embedded_resources
                (map JObj [task_entry "T_ROB1" false true;
                           task_entry "T_ROB2" true true;
                           task_entry "T_LOG" true false]))).

Definition table_two_robots : dict TaskState :=
  [("T_ROB1", parsed_task "T_ROB1" false true);
   ("T_ROB2", parsed_task "T_ROB2" true true);
   ("T_LOG", parsed_task "T_LOG" true false)].


(** A complete robtarget state, and the one without its rotation. *)
Definition robtarget_state_full : dict json :=
  [("x", JStr "600"); ("y", JStr "0"); ("z", JStr "800");
   ("q1", JStr "1"); ("q2", JStr "0"); ("q3", JStr "0"); ("q4", JStr "0");
   ("cf1", JStr "0"); ("cf4", JStr "0"); ("cf6", JStr "0"); ("cfx", JStr "0");
   ("eax_a", JStr "9"); ("eax_b", JStr "9"); ("eax_c", JStr "9");
   ("eax_d", JStr "9"); ("eax_e", JStr "9"); ("eax_f", JStr "9")].

Definition robtarget_state_no_rot : dict json :=
  [("x", JStr "600"); ("y", JStr "0"); ("z", JStr "800")].

(** ** The rest of class RWS2 *)

Module Rws2Ops.

(** [RAPIDExecutionState]: both fields are typed [Any]. *)
Record RAPIDExecutionState : Type := {
  ctrlexecstate : json;
  cycle : json
}.

Record IpcMessage : Type := {
  data : string;
  userdef : string;
  msgtype : string;
  cmd : string;
  queue_name : string
}.

(** [abb_robot_client.rws.JointTarget], a named tuple of two arrays. *)
Record JointTarget (NdArray : Type) : Type := {
  robax : NdArray;
  extax : NdArray
}.
Arguments robax {NdArray}.
Arguments extax {NdArray}.

Section Client.

Variable W : Type.
Variable transport : Request -> W -> Outcome * W.

(** [np_array l] is [np.array(l, dtype=np.float64)]; [str_of_float x] is
    [str(x)] on a float. *)
Variable NdArray : Type.
Variable np_array : list json -> result NdArray.
Variable F : Type.
Variable str_of_float : F -> string.

Notation "'do' x <- m ;; k" := (bind W m (fun x => k))
  (at level 10, x name, m at level 99, k at level 200).

(** A number given as [int] or as [float]. *)
Inductive PyNum : Type :=
| NInt (z : Z)
| NFloat (x : F).

Definition num_str (n : PyNum) : string :=
  match n with
  | NInt z => str_of_int z
  | NFloat x => str_of_float x
  end.

(** *** Execution *)

Definition stop : M W unit :=
  do _ <- _do_post W transport "rw/rapid/execution/stop?mastership=implicit"
            (Some [("stopmode", "stop")]) ;;
  ret W tt.

Definition resetpp : M W unit :=
  do _ <- _do_post W transport "rw/rapid/execution/resetpp?mastership=implicit" None ;;
  ret W tt.

(** [res_json["state"][0]]. *)
Definition state_0 (res_json : json) : result json :=
  let? s := getitem res_json "state" in
  getitem0 s.

Definition get_ramdisk_path : M W json :=
  do res_json <- _do_get W transport "ctrl/$RAMDISK" ;;
  lift W (let? state := state_0 res_json in getitem state "value").

Definition get_execution_state : M W RAPIDExecutionState :=
  do res_json <- _do_get W transport "rw/rapid/execution" ;;
  lift W (let? state := state_0 res_json in
          let? c := getitem state "ctrlexecstate" in
          let? y := getitem state "cycle" in
          Ok {| ctrlexecstate := c; cycle := y |}).

(** *** Panel *)

Definition get_controller_state : M W json :=
  do res_json <- _do_get W transport "rw/panel/ctrl-state" ;;
  lift W (let? state := state_0 res_json in getitem state "ctrlstate").

Definition set_controller_state (ctrl_state : string) : M W unit :=
  do _ <- _do_post W transport "rw/panel/ctrl-state?mastership=implicit"
            (Some [("ctrl-state", ctrl_state)]) ;;
  ret W tt.

Definition set_motors_on : M W unit := set_controller_state "motoron".
Definition set_motors_off : M W unit := set_controller_state "motoroff".

Definition get_operation_mode : M W json :=
  do res_json <- _do_get W transport "rw/panel/opmode" ;;
  lift W (let? state := state_0 res_json in getitem state "opmode").

Definition set_speedratio (speedratio : PyNum) : M W unit :=
  do _ <- _do_post W transport "rw/panel/speedratio?mastership=implicit"
            (Some [("speed-ratio", num_str speedratio)]) ;;
  ret W tt.

(** *** Signals *)

(** [value] is [bool | int]; [bool(value)] is false for [0] and [False]
    only. The URL is built from network and unit whatever they are. *)
Definition set_digital_io (signal : string) (value : Z) (network unit : string)
  : M W Datatypes.unit :=
  let lvalue := if (value =? 0)%Z then "0" else "1" in
  do _ <- _do_post W transport
            ("rw/iosystem/signals/" +:+ network +:+ "/" +:+ unit +:+ "/" +:+ signal
             +:+ "?mastership=implicit")
            (Some [("lvalue", lvalue)]) ;;
  ret W tt.

(** *** RAPID variables *)

Definition set_rapid_variable_num (var : string) (val : F) (task : option string)
  : M W unit :=
  set_rapid_variable W transport var (str_of_float val) task.

(** *** Joint target *)

(** [res_json.get("state", [])]: a method of [dict]. *)
Definition get_state_list (res_json : json) : result json :=
  match res_json with
  | JObj d => Ok (match dict_get d "state" with Some s => s | None => JArr [] end)
  | _ => Raise AttributeError
  end.

(** [not x]. *)
Definition falsy (j : json) : bool :=
  match j with
  | JNull | JBool false | JInt 0 | JStr EmptyString | JArr [] | JObj [] => true
  | _ => false
  end.

Definition robax_keys : list string :=
  ["rax_1"; "rax_2"; "rax_3"; "rax_4"; "rax_5"; "rax_6"].

Definition jointtarget_of (joint_data : json) : result (JointTarget NdArray) :=
  let? robjoint := np_group NdArray np_array joint_data robax_keys in
  let? extjoint := np_group NdArray np_array joint_data extax_keys in
  Ok {| robax := robjoint; extax := extjoint |}.

Definition get_jointtarget (task : string) : M W (JointTarget NdArray) :=
  do res_json <- _do_get W transport
                   ("rw/rapid/tasks/" +:+ task +:+ "/motion/jointtarget") ;;
  if is_None res_json then raise W (Exception "Failed to get joint target")
  else
    lift W (let? state_list := get_state_list res_json in
            if falsy state_list then Raise (Exception "No joint target state found")
            else let? joint_data := getitem0 state_list in
                 jointtarget_of joint_data).

(** *** IPC *)

(** One turn of the loop of [read_ipc_message]. *)
Definition parse_ipc_state (state : json) : result IpcMessage :=
  let? ty := getitem state "_type" in
  if negb (is_str "dipc-read-li" ty) then Raise (Exception "Invalid IPC message type")
  else
    let? d := getitem state "dipc-data" in
    let? u := getitem state "dipc-userdef" in
    let? m := getitem state "dipc-msgtype" in
    let? c := getitem state "dipc-cmd" in
    let? q := getitem state "queue-name" in
    let? d_s := str_field d in
    let? u_s := str_field u in
    let? m_s := str_field m in
    let? c_s := str_field c in
    let? q_s := str_field q in
    Ok {| data := d_s; userdef := u_s; msgtype := m_s; cmd := c_s;
          queue_name := q_s |}.

Definition read_ipc_message (queue : string) (timeout : PyNum) : M W (list IpcMessage) :=
  do res_json <- _do_get W transport
                   ("rw/dipc/" +:+ queue +:+ "/" +:+ num_str timeout) ;;
  lift W (let? e := getitem res_json "_embedded" in
          let? states := getitem e "_state" in
          let? l := iter states in
          map_result parse_ipc_state l).

End Client.

Arguments NInt {F} z.
Arguments NFloat {F} x.

End Rws2Ops.

(** ** The rest of class RWSMock *)

Module MockFull.

Definition bytes : Type := list Byte.byte.

(** [s.lstrip("/")] and [s.rstrip("/")]. *)
Fixpoint lstrip_slash (s : string) : string :=
  match s with
  | String c s' => if Ascii.eqb c "/" then lstrip_slash s' else s
  | EmptyString => EmptyString
  end.

Fixpoint rstrip_slash (s : string) : string :=
  match s with
  | EmptyString => EmptyString
  | String c s' =>
      match rstrip_slash s' with
      | EmptyString => if Ascii.eqb c "/" then EmptyString else String c EmptyString
      | r => String c r
      end
  end.

(** What the file methods can raise. *)
Inductive FsExc : Type :=
| FileNotFoundError (msg : string)
| UnicodeDecodeError.

Section Values.

(** Floats and text encoding stay abstract: [zero] is [0.0], [str_of_float x]
    is [str(x)], [float_of_int z] is [float(z)] ([None] for the
    [OverflowError] of an integer too large for a float), [encode s] is
    [s.encode("utf-8")] and [decode b] is [b.decode("utf-8")] ([None] for its
    [UnicodeDecodeError]). *)
Variable F : Type.
Variable zero : F.
Variable str_of_float : F -> string.
Variable float_of_int : Z -> option F.
Variable encode : string -> bytes.
Variable decode : bytes -> option string.

(** An [RWSMock] with all its attributes: those of [Mock.RWSMock] and the
    three left out there. *)
Record RWSMock : Type := {
  base : Mock.RWSMock;
  _speedratio : Z;
  _aio : gmap string F;
  _files : gmap string bytes
}.

Definition with_base (b : Mock.RWSMock) (m : RWSMock) : RWSMock :=
  {| base := b; _speedratio := _speedratio m; _aio := _aio m; _files := _files m |}.

Definition with_speedratio (sr : Z) (m : RWSMock) : RWSMock :=
  {| base := base m; _speedratio := sr; _aio := _aio m; _files := _files m |}.

Definition with_aio (a : gmap string F) (m : RWSMock) : RWSMock :=
  {| base := base m; _speedratio := _speedratio m; _aio := a; _files := _files m |}.

Definition with_files (f : gmap string bytes) (m : RWSMock) : RWSMock :=
  {| base := base m; _speedratio := _speedratio m; _aio := _aio m; _files := f |}.

Definition with_controller_state (c : string) (b : Mock.RWSMock) : Mock.RWSMock :=
  {| Mock._exec_state := Mock._exec_state b; Mock._controller_state := c;
     Mock._opmode := Mock._opmode b; Mock._tasks := Mock._tasks b;
     Mock._dio := Mock._dio b; Mock._rapid := Mock._rapid b |}.

Definition newline : string := String (ascii_of_nat 10) EmptyString.

Definition module_text : bytes :=
  list_byte_of_string
    ("MODULE motion_program_exec" +:+ newline +:+ "ENDMODULE" +:+ newline).

(** [RWSMock()]. *)
Definition init : RWSMock :=
  {| base := Mock.init;
     _speedratio := 100;
     _aio := <["motion_program_preempt" := zero]> ∅;
     _files := <["$HOME/motion_program_exec.mod" := module_text]>
                 (<["/TEMP/motion_program_exec.mod" := module_text]> ∅) |}.

(** *** Execution and panel *)

Definition start (cycle : string) (tasks : option (list string)) (m : RWSMock)
  : result RWSMock :=
  let? b := Mock.start cycle tasks (base m) in Ok (with_base b m).

Definition stop (m : RWSMock) : RWSMock :=
  with_base (Mock.with_exec_state "stopped" (base m)) m.

Definition resetpp (m : RWSMock) : RWSMock := m.

(** [_ExecState(ctrlexecstate=self._exec_state, cycle="forever")]. *)
Definition get_execution_state (m : RWSMock) : string * string :=
  (Mock._exec_state (base m), "forever").

Definition get_controller_state (m : RWSMock) : string :=
  Mock._controller_state (base m).

Definition set_controller_state (ctrl_state : string) (m : RWSMock) : result RWSMock :=
  if negb (str_in ctrl_state ["motoron"; "motoroff"])
  then Raise ValueError
  else Ok (with_base (with_controller_state ctrl_state (base m)) m).

Definition set_motors_on (m : RWSMock) : RWSMock :=
  with_base (with_controller_state "motoron" (base m)) m.

Definition set_motors_off (m : RWSMock) : RWSMock :=
  with_base (with_controller_state "motoroff" (base m)) m.

Definition get_operation_mode (m : RWSMock) : string := Mock._opmode (base m).

Definition get_speedratio (m : RWSMock) : Z := _speedratio m.

Definition set_speedratio (speedratio : Z) (m : RWSMock) : result RWSMock :=
  let sr := speedratio in
  if negb ((0 <=? sr)%Z && (sr <=? 100)%Z)
  then Raise ValueError
  else Ok (with_speedratio sr m).

Definition is_mastered (m : RWSMock) : bool := false.

(** *** Analog IO *)

Definition get_analog_io (signal network unit : string) (m : RWSMock) : F :=
  default zero (_aio m !! signal).

(** [float(value)] for [value: int | float]. *)
Definition py_float (value : Rws2Ops.PyNum F) : result F :=
  match value with
  | Rws2Ops.NFloat x => Ok x
  | Rws2Ops.NInt z => of_option OverflowError (float_of_int z)
  end.

Definition set_analog_io (signal : string) (value : Rws2Ops.PyNum F)
    (network unit : string) (m : RWSMock) : result RWSMock :=
  let? x := py_float value in
  Ok (with_aio (<[signal := x]> (_aio m)) m).

(** *** Files *)

Definition get_ramdisk_path (m : RWSMock) : string := "/TEMP/".

(** [if directory]: neither [None] nor empty. *)
Definition _resolve_path (filename : string) (directory : option string) : string :=
  match directory with
  | Some d =>
      if String.eqb d "" then filename
      else rstrip_slash d +:+ "/" +:+ lstrip_slash filename
  | None => filename
  end.

Definition read_file (filename : string) (directory : option string) (m : RWSMock)
  : FsExc + bytes :=
  let path := _resolve_path filename directory in
  match _files m !! path with
  | Some data => inr data
  | None => inl (FileNotFoundError ("Path does not exist: " +:+ path))
  end.

(** A missing file is not an error here: the message of the exception is
    returned as if it were the text. *)
Definition read_file_str (filename : string) (directory : option string) (m : RWSMock)
  : FsExc + string :=
  match read_file filename directory m with
  | inr data =>
      match decode data with
      | Some s => inr s
      | None => inl UnicodeDecodeError
      end
  | inl (FileNotFoundError msg) => inr msg
  | inl e => inl e
  end.

(** [content] is [str | bytes]. *)
Definition upload_file (filename : string) (content : string + bytes)
    (directory : option string) (m : RWSMock) : RWSMock :=
  let path := _resolve_path filename directory in
  let data := match content with inl s => encode s | inr b => b end in
  with_files (<[path := data]> (_files m)) m.

Definition delete_file (filename : string) (directory : option string) (m : RWSMock)
  : RWSMock :=
  let path := _resolve_path filename directory in
  match _files m !! path with
  | Some _ => with_files (delete path (_files m)) m
  | None => m
  end.

(** *** Any sequence of calls

    The methods that change the mock; [after c m] is the mock once [c] was
    called on [m]. A call that raises does so before it assigns anything. *)
Inductive Call : Type :=
| CallStart (cycle : string) (tasks : option (list string))
| CallStop
| CallResetpp
| CallSetControllerState (ctrl_state : string)
| CallSetMotorsOn
| CallSetMotorsOff
| CallSetSpeedratio (speedratio : Z)
| CallActivateTask (task : string)
| CallDeactivateTask (task : string)
| CallSetDigitalIo (signal : string) (value : Z) (network unit : string)
| CallSetAnalogIo (signal : string) (value : Rws2Ops.PyNum F) (network unit : string)
| CallSetRapidVariable (var : string) (value : Mock.PyVal F) (task : option string)
| CallUploadFile (filename : string) (content : string + bytes)
                 (directory : option string)
| CallDeleteFile (filename : string) (directory : option string).

Definition kept (m : RWSMock) (r : result RWSMock) : RWSMock :=
  match r with Ok m' => m' | Raise _ => m end.

Definition on_base (f : Mock.RWSMock -> Mock.RWSMock) (m : RWSMock) : RWSMock :=
  with_base (f (base m)) m.

Definition after (c : Call) (m : RWSMock) : RWSMock :=
  match c with
  | CallStart cycle tasks => kept m (start cycle tasks m)
  | CallStop => stop m
  | CallResetpp => resetpp m
  | CallSetControllerState s => kept m (set_controller_state s m)
  | CallSetMotorsOn => set_motors_on m
  | CallSetMotorsOff => set_motors_off m
  | CallSetSpeedratio sr => kept m (set_speedratio sr m)
  | CallActivateTask t => on_base (Mock.activate_task t) m
  | CallDeactivateTask t => on_base (Mock.deactivate_task t) m
  | CallSetDigitalIo s v n u => on_base (Mock.set_digital_io s v n u) m
  | CallSetAnalogIo s v n u => kept m (set_analog_io s v n u m)
  | CallSetRapidVariable var value task =>
      on_base (Mock.set_rapid_variable F str_of_float var value task) m
  | CallUploadFile f c d => upload_file f c d m
  | CallDeleteFile f d => delete_file f d m
  end.

Definition after_all (calls : list Call) (m : RWSMock) : RWSMock :=
  fold_left (fun m c => after c m) calls m.

End Values.

Arguments base {F}.
Arguments _speedratio {F}.
Arguments _aio {F}.
Arguments _files {F}.

End MockFull.

(** ** Vocabulary of the further statements *)

(** The requests of [start], named. *)
Definition activate_request (task : string) : Request :=
  post_request "rw/rapid/tasks/activate?mastership=implicit" (Some [("task", task)]).

Definition deactivate_request (task : string) : Request :=
  post_request ("rw/rapid/tasks/" +:+ task +:+ "/deactivate?mastership=implicit")
    (Some [("task", task)]).

Definition start_request (cycle : string) : Request :=
  post_request "rw/rapid/execution/start?mastership=implicit"
    (Some [("regain", "continue"); ("execmode", "continue"); ("cycle", cycle);
           ("condition", "none"); ("stopatbp", "disabled");
           ("alltaskbytsp", "true")]).

(** What [start] has to send for one task of the table, and for all of them
    followed by the start request. *)
Definition task_requests (tasks : list string) (t : TaskState) : list Request :=
  if motiontask t then
    if str_in (name t) tasks
    then (if active t then [] else [activate_request (name t)])
    else (if active t then [deactivate_request (name t)] else [])
  else [].

Definition start_plan (cycle : string) (tasks : list string) (rob_tasks : dict TaskState)
  : list Request :=
  flat_map (task_requests tasks) (dict_values rob_tasks) ++ [start_request cycle].

(** The three requests of a variable write. *)
Definition write_requests (var value : string) (task : option string) : list Request :=
  [post_request "rw/mastership/request" None;
   post_request (rapid_set_url var task) (Some [("value", value)]);
   post_request "rw/mastership/release" None].

(** What a single [_do_post] makes of the outcome of its request. *)
Definition post_result (o : Outcome) : result Datatypes.unit :=
  match o with
  | Failed => Raise UnboundLocalError
  | Replied r =>
      if (status_code r =? 403)%Z
      then Raise (ABBException "Mastership required for this operation" 403)
      else Ok tt
  end.

(** A transport on which every GET comes to nothing: the call fails, the
    status is 4xx or 5xx, or the body is not JSON. *)
Definition gets_fail {W} (tr : Request -> W -> Outcome * W) (w : W) : Prop :=
  forall u, get_value (fst (tr (get_request u) w)) = JNull.

(** The state of a mock that every call keeps. *)
Definition mock_invariant {F} (m : MockFull.RWSMock F) : Prop :=
  (0 <= MockFull._speedratio m <= 100)%Z /\
  (Mock._controller_state (MockFull.base m) = "motoron" \/
   Mock._controller_state (MockFull.base m) = "motoroff") /\
  (Mock._exec_state (MockFull.base m) = "stopped" \/
   Mock._exec_state (MockFull.base m) = "running") /\
  Mock._opmode (MockFull.base m) = "AUTO" /\
  (forall s v, Mock._dio (MockFull.base m) !! s = Some v -> v = 0%Z \/ v = 1%Z) /\
  dict_keys (Mock._tasks (MockFull.base m)) = ["T_ROB1"] /\
  Bench.keyed_by_name (Mock._tasks (MockFull.base m)).

(** A transport that answers every request alike. *)
Definition always (o : Outcome) (r : Request) (w : Datatypes.unit)
  : Outcome * Datatypes.unit := (o, w).

Definition nowhere : St Datatypes.unit := {| world := tt; sent := [] |}.

(** An IPC message as the controller lists it. *)
Definition ipc_state_hello : json :=
  JObj [("_type", JStr "dipc-read-li"); ("dipc-data", JStr "hello");
        ("dipc-userdef", JStr "1"); ("dipc-msgtype", JStr "1");
        ("dipc-cmd", JStr "111"); ("queue-name", JStr "MY_QUEUE")].



(** * Properties *)

(** ** Built-ins *)

Example int_of_str_examples :
  int_of_str " 42 " = Some 42%Z /\ int_of_str "-7" = Some (-7)%Z /\
  int_of_str "1_000" = Some 1000%Z /\ int_of_str "1__0" = None /\
  int_of_str "" = None /\ int_of_str "4x" = None /\ int_of_str "007" = Some 7%Z.
Proof. repeat split; reflexivity. Qed.

Example last_segment_examples :
  last_segment "/rw/elog/0/17" = "17" /\ last_segment "17" = "17" /\
  last_segment "a/" = "".
Proof. repeat split; reflexivity. Qed.

(** ** Running the monad *)

Lemma bind_ok {W A B} (m : M W A) (k : A -> M W B) st a st' :
  m st = (Ok a, st') -> bind W m k st = k a st'.
Proof. intros H. unfold bind. now rewrite H. Qed.

Lemma bind_raise {W A B} (m : M W A) (k : A -> M W B) st e st' :
  m st = (Raise e, st') -> bind W m k st = (Raise e, st').
Proof. intros H. unfold bind. now rewrite H. Qed.

Lemma send_eq {W} (tr : Request -> W -> Outcome * W) r st o w' :
  tr r (world st) = (o, w') ->
  send W tr r st = (o, {| world := w'; sent := sent st ++ [r] |}).
Proof. intros H. unfold send. now rewrite H. Qed.

(** ** Subscription requests *)

Lemma SubscriptionResourceType_of_value t :
  SubscriptionResourceType_of (SubscriptionResourceType_value t) = Some t.
Proof. now destruct t. Qed.

Lemma SubscriptionResourcePriority_of_value q :
  SubscriptionResourcePriority_of (SubscriptionResourcePriority_value q) = Some q.
Proof. now destruct q. Qed.

Lemma SubscriptionResourceType_of_range z :
  is_Some (SubscriptionResourceType_of z) <-> (1 <= z <= 7)%Z.
Proof.
  split.
  - intros [t Ht]. unfold SubscriptionResourceType_of in Ht.
    repeat match type of Ht with
           | match ?x with _ => _ end = _ => destruct x; try discriminate
           end; lia.
  - intros Hz.
    assert (z = 1 \/ z = 2 \/ z = 3 \/ z = 4 \/ z = 5 \/ z = 6 \/ z = 7)%Z
      as Hc by lia.
    destruct Hc as [->|[->|[->|[->|[->|[->| ->]]]]]]; simpl; eauto.
Qed.

Lemma SubscriptionResourcePriority_of_range z :
  is_Some (SubscriptionResourcePriority_of z) <-> (0 <= z <= 2)%Z.
Proof.
  split.
  - intros [t Ht]. unfold SubscriptionResourcePriority_of in Ht.
    repeat match type of Ht with
           | match ?x with _ => _ end = _ => destruct x; try discriminate
           end; lia.
  - intros Hz.
    assert (z = 0 \/ z = 1 \/ z = 2)%Z as Hc by lia.
    destruct Hc as [->|[->| ->]]; simpl; eauto.
Qed.

(** C3, as the code has it: constructing a subscription request checks each
    field on its own. Every resource type goes with every priority, High
    included, and the request built carries exactly the three values given;
    construction fails only for a number that is no resource type (1..7) or
    no priority (0..2). *)
Theorem subscription_request_accepts_every_combination :
  (forall t q p,
     SubscriptionResourceRequest_init
       (SubscriptionResourceType_value t) (SubscriptionResourcePriority_value q) p
     = Ok {| resource_type := t; priority := q; param := p |}) /\
  (forall rt pr p,
     is_ok (SubscriptionResourceRequest_init rt pr p) = true <->
     (1 <= rt <= 7)%Z /\ (0 <= pr <= 2)%Z).
Proof.
  split.
  - intros t q p. unfold SubscriptionResourceRequest_init.
    now rewrite SubscriptionResourceType_of_value, SubscriptionResourcePriority_of_value.
  - intros rt pr p. rewrite <- SubscriptionResourceType_of_range,
      <- SubscriptionResourcePriority_of_range.
    unfold SubscriptionResourceRequest_init.
    destruct (SubscriptionResourceType_of rt), (SubscriptionResourcePriority_of pr);
      simpl; split; try discriminate; eauto.
    + intros [_ [? ?]]; discriminate.
    + intros [[? ?] _]; discriminate.
    + intros [[? ?] _]; discriminate.
Qed.

(** C3 as stated fails: a request for ControllerState with High priority is
    built without complaint. *)
Lemma controller_state_high_is_accepted :
  SubscriptionResourceRequest_init 1 2 JNull
  = Ok {| resource_type := ControllerState; priority := High; param := JNull |}.
Proof. reflexivity. Qed.

(** ** Transport helpers *)

Lemma do_get_run {W} (tr : Request -> W -> Outcome * W) u st o w' :
  tr (get_request u) (world st) = (o, w') ->
  _do_get W tr u st
  = (Ok (get_value o), {| world := w'; sent := sent st ++ [get_request u] |}).
Proof.
  intros H. unfold _do_get. fold (get_request u). rewrite (send_eq _ _ _ _ _ H).
  destruct o as [|r]; simpl; [reflexivity|].
  destruct (raise_for_status r); [reflexivity|].
  unfold response_json. now destruct (content r).
Qed.

(** [_do_get] never raises and sends exactly one request. *)
Lemma do_get_total {W} (tr : Request -> W -> Outcome * W) u st :
  exists j w',
    _do_get W tr u st
    = (Ok j, {| world := w'; sent := sent st ++ [get_request u] |}).
Proof.
  destruct (tr (get_request u) (world st)) as [o w'] eqn:H.
  exists (get_value o), w'. now apply do_get_run.
Qed.

Lemma do_post_error_status {W} (tr : Request -> W -> Outcome * W) u p st r w' :
  tr (post_request u p) (world st) = (Replied r, w') ->
  raise_for_status r = true ->
  _do_post W tr u p st
  = (if (status_code r =? 403)%Z
     then Raise (ABBException "Mastership required for this operation" 403)
     else Ok JNull,
     {| world := w'; sent := sent st ++ [post_request u p] |}).
Proof.
  intros H Hs. unfold _do_post. fold (post_request u p).
  rewrite (send_eq _ _ _ _ _ H), Hs. now destruct (status_code r =? 403)%Z.
Qed.

(** A GET of the task list that fails in any of these ways leaves
    [get_tasks] with an empty table, and no exception. *)
Lemma get_tasks_empty_on_failure {W} (tr : Request -> W -> Outcome * W) st :
  get_value (fst (tr (get_request "rw/rapid/tasks") (world st))) = JNull ->
  fst (get_tasks W tr st) = Ok [].
Proof.
  intros H. unfold get_tasks.
  destruct (tr (get_request "rw/rapid/tasks") (world st)) as [o w'] eqn:Htr.
  rewrite (bind_ok _ _ _ _ _ (do_get_run _ _ _ _ _ Htr)).
  cbn [fst] in H. now rewrite H.
Qed.









(** ** Mastership around a variable write *)

Lemma arbiter_app log r : arbiter (log ++ [r]) = arbiter_step (arbiter log) r.
Proof. unfold arbiter. now rewrite fold_left_app. Qed.

Lemma mastership_post_run {W} (tr : Request -> W -> Outcome * W) u st :
  let st' := {| world := snd (tr (post_request u None) (world st));
                sent := sent st ++ [post_request u None] |} in
  mastership_post W tr u st
  = (match fst (tr (post_request u None) (world st)) with
     | Failed => Raise RequestException
     | Replied _ => Ok tt
     end, st').
Proof.
  unfold mastership_post, send. fold (post_request u None).
  destruct (tr (post_request u None) (world st)) as [[|r] w']; reflexivity.
Qed.

(** On any transport: once the mastership request is answered and the write
    is answered with status 403, the call raises with two requests sent, the
    second being the write, and the arbiter is [Held]. *)
Lemma set_rapid_variable_403_unreleased {W} (tr : Request -> W -> Outcome * W)
    var value task st r1 w1 r2 w2 :
  tr (post_request "rw/mastership/request" None) (world st) = (Replied r1, w1) ->
  tr (post_request (rapid_set_url var task) (Some [("value", value)])) w1
  = (Replied r2, w2) ->
  status_code r2 = 403%Z ->
  set_rapid_variable W tr var value task st
  = (Raise (ABBException "Mastership required for this operation" 403),
     {| world := w2;
        sent := (sent st ++ [post_request "rw/mastership/request" None])
                ++ [post_request (rapid_set_url var task) (Some [("value", value)])] |})
  /\ arbiter ((sent st ++ [post_request "rw/mastership/request" None])
              ++ [post_request (rapid_set_url var task) (Some [("value", value)])])
     = Held.
Proof.
  intros H1 H2 H403. split.
  - unfold set_rapid_variable, request_mastership.
    assert (mastership_post W tr "rw/mastership/request" st
            = (Ok tt, {| world := w1;
                         sent := sent st ++ [post_request "rw/mastership/request" None] |}))
      as Hreq by (rewrite mastership_post_run, H1; reflexivity).
    rewrite (bind_ok _ _ _ _ _ Hreq).
    apply bind_raise.
    rewrite (do_post_error_status tr _ _ _ r2 w2).
    + now rewrite H403.
    + exact H2.
    + unfold raise_for_status. now rewrite H403.
  - rewrite !arbiter_app. unfold arbiter_step at 1. cbn [verb url post_request].
    assert (String.eqb (rapid_set_url var task) "rw/mastership/request" = false) as E1.
    { unfold rapid_set_url. reflexivity. }
    assert (String.eqb (rapid_set_url var task) "rw/mastership/release" = false) as E2.
    { unfold rapid_set_url. reflexivity. }
    rewrite E1, E2. reflexivity.
Qed.

(** C1 fails on the code at this input: the mastership request is granted and
    the write is answered with status 403. [_do_post] raises, the exception
    leaves [set_rapid_variable] before [release_mastership] is reached, and
    the arbiter is still [Held]. *)
Theorem set_rapid_variable_403_skips_release :
  let run := set_rapid_variable _ Bench.scripted "test_num" "42" (Some "T_ROB1")
               (Bench.script [Bench.reply 204 NoContent; Bench.reply 403 NotJson;
                              Bench.reply 204 NoContent]) in
  fst run = Raise (ABBException "Mastership required for this operation" 403) /\
  sent (snd run)
  = [post_request "rw/mastership/request" None;
     post_request "rw/rapid/symbol/RAPID/T_ROB1/test_num/data?mastership=implicit"
                  (Some [("value", "42")])] /\
  arbiter (sent (snd run)) = Held.
Proof. repeat split; reflexivity. Qed.

(** ** Task listing *)

Lemma field_missing {A} d k (v : json -> option A) :
  dict_in k d = false -> field d k v = Raise ValidationError.
Proof. unfold dict_in, field. now destruct (dict_get d k). Qed.

Lemma validate_needs_name d :
  dict_in "name" d = false -> valid_task d = None.
Proof.
  intros H. unfold valid_task, TaskState_model_validate.
  now rewrite (field_missing _ _ _ H).
Qed.

Lemma get_tasks_entry_object o d :
  get_tasks_entry o (JObj d)
  = Ok (match valid_task d with
        | Some t => dict_set o (name t) t
        | None => o
        end).
Proof.
  unfold get_tasks_entry. cbn [contains rbind].
  destruct (dict_in "name" d) eqn:Hn; cbn [negb].
  - unfold valid_task. now destruct (TaskState_model_validate (JObj d)).
  - now rewrite (validate_needs_name _ Hn).
Qed.

Lemma get_tasks_loop_objects entries : forall o,
  get_tasks_loop o (map JObj entries)
  = Ok (fold_left (fun o t => dict_set o (name t) t) (valid_tasks entries) o).
Proof.
  induction entries as [|d entries IH]; intros o; [reflexivity|].
  cbn [map get_tasks_loop]. rewrite get_tasks_entry_object. cbn [rbind].
  rewrite IH. unfold valid_tasks. cbn [omap list_omap].
  now destruct (valid_task d).
Qed.

(** X19: when every entry of the task collection is a JSON object,
    [get_tasks] returns without raising and its dict holds exactly the
    entries that validate as [TaskState], under their names; an entry without
    a name and an entry that fails validation are skipped. *)
Theorem get_tasks_skips_malformed_entries :
  forall W (tr : Request -> W -> Outcome * W) st r w' doc e entries,
    tr (get_request "rw/rapid/tasks") (world st) = (Replied r, w') ->
    raise_for_status r = false ->
    content r = JsonDoc doc ->
    getitem doc "_embedded" = Ok e ->
    getitem e "resources" = Ok (JArr (map JObj entries)) ->
    fst (get_tasks W tr st) = Ok (task_table (valid_tasks entries)).
Proof.
  intros W tr st r w' doc e entries Htr Hs Hc He Hr.
  unfold get_tasks. rewrite (bind_ok _ _ _ _ _ (do_get_run _ _ _ _ _ Htr)).
  unfold get_value. rewrite Hs, Hc.
  destruct doc; try discriminate He. cbn [is_None].
  unfold lift. cbn [fst]. rewrite He. cbn [rbind]. rewrite Hr. cbn [rbind iter].
  apply get_tasks_loop_objects.
Qed.

Lemma get_tasks_skips_malformed_entries_witness :
  fst (get_tasks _ Bench.scripted
         (Bench.script
            [Bench.reply 200
               (JsonDoc (Bench.embedded_resources
                           (map JObj [entry_T_ROB1; entry_broken])))]))
  = Ok [("T_ROB1", {| name := "T_ROB1"; type := "normal"; taskstate := "started";
                      excstate := "ready"; active := true; motiontask := true |})].
Proof.
  apply (get_tasks_skips_malformed_entries _ Bench.scripted
           (Bench.script
              [Bench.reply 200
                 (JsonDoc (Bench.embedded_resources
                             (map JObj [entry_T_ROB1; entry_broken])))])
           {| status_code := 200;
              content := JsonDoc (Bench.embedded_resources
                                    (map JObj [entry_T_ROB1; entry_broken])) |}
           [] (Bench.embedded_resources (map JObj [entry_T_ROB1; entry_broken]))
           (JObj [("resources", JArr (map JObj [entry_T_ROB1; entry_broken]))])
           [entry_T_ROB1; entry_broken]);
    reflexivity.
Defined.

Lemma get_tasks_loop_app l1 l2 : forall o,
  get_tasks_loop o (l1 ++ l2)
  = let? o' := get_tasks_loop o l1 in get_tasks_loop o' l2.
Proof.
  induction l1 as [|s l1 IH]; intros o; [reflexivity|].
  cbn [app get_tasks_loop]. destruct (get_tasks_entry o s); cbn [rbind]; auto.
Qed.

(** C6 fails on the code: the skipping covers JSON objects only. For an entry
    that is [null], a truth value or a number, the membership test
    ["name" not in s], which stands before the [try], raises [TypeError]; the
    call raises and the well-formed entries read before it are lost. *)
Theorem get_tasks_raises_on_entry_that_is_no_object :
  forall W (tr : Request -> W -> Outcome * W) st r w' doc e entries bad rest,
    tr (get_request "rw/rapid/tasks") (world st) = (Replied r, w') ->
    raise_for_status r = false ->
    content r = JsonDoc doc ->
    getitem doc "_embedded" = Ok e ->
    getitem e "resources" = Ok (JArr (map JObj entries ++ bad :: rest)) ->
    not_a_container bad ->
    fst (get_tasks W tr st) = Raise TypeError.
Proof.
  intros W tr st r w' doc e entries bad rest Htr Hs Hc He Hr Hbad.
  unfold get_tasks. rewrite (bind_ok _ _ _ _ _ (do_get_run _ _ _ _ _ Htr)).
  unfold get_value. rewrite Hs, Hc.
  destruct doc; try discriminate He. cbn [is_None].
  unfold lift. cbn [fst]. rewrite He. cbn [rbind]. rewrite Hr. cbn [rbind iter].
  rewrite get_tasks_loop_app, get_tasks_loop_objects. cbn [rbind get_tasks_loop].
  unfold get_tasks_entry.
  destruct Hbad as [->|[[b ->]|[z ->]]]; reflexivity.
Qed.

Lemma get_tasks_raises_on_entry_that_is_no_object_witness :
  fst (get_tasks _ Bench.scripted
         (Bench.script
            [Bench.reply 200
               (JsonDoc (Bench.embedded_resources [JObj entry_T_ROB1; JNull]))]))
  = Raise TypeError.
Proof.
  apply (get_tasks_raises_on_entry_that_is_no_object _ Bench.scripted
           (Bench.script
              [Bench.reply 200
                 (JsonDoc (Bench.embedded_resources [JObj entry_T_ROB1; JNull]))])
           {| status_code := 200;
              content := JsonDoc (Bench.embedded_resources
                                    [JObj entry_T_ROB1; JNull]) |}
           [] (Bench.embedded_resources [JObj entry_T_ROB1; JNull])
           (JObj [("resources", JArr [JObj entry_T_ROB1; JNull])])
           [entry_T_ROB1] JNull []);
    [reflexivity | reflexivity | reflexivity | reflexivity | reflexivity | now left].
Defined.

(** ** Event log *)







(** ** Comprehensions *)

Lemma map_result_Ok_iff {A B} (f : A -> result B) l : forall out,
  map_result f l = Ok out <-> Forall2 (fun x y => f x = Ok y) l out.
Proof.
  induction l as [|x l IH]; intros out; cbn [map_result].
  - split; [intros H; inversion H; constructor | intros H; now inversion H].
  - split.
    + destruct (f x) as [y|] eqn:E; cbn [rbind]; [|discriminate].
      destruct (map_result f l) as [ys|] eqn:El; cbn [rbind]; [|discriminate].
      intros H; inversion H; subst. constructor; [exact E | now apply IH].
    + intros H. inversion H as [|x' y l' ys Hy Hys]; subst.
      rewrite Hy. cbn [rbind]. apply IH in Hys. now rewrite Hys.
Qed.

(** The exception of a comprehension is that of the first element that
    raises. *)
Lemma map_result_first_failure {A B} (f : A -> result B) pre x post e :
  Forall (fun y => exists b, f y = Ok b) pre ->
  f x = Raise e ->
  map_result f (pre ++ x :: post) = Raise e.
Proof.
  intros Hpre Hx. induction Hpre as [|y pre [b Hy] _ IH]; cbn [app map_result].
  - now rewrite Hx.
  - rewrite Hy. cbn [rbind]. now rewrite IH.
Qed.

(** ** Robtarget *)

Lemma holds_keys_getitem d keys vals :
  map_result (getitem (JObj d)) keys = Ok vals <-> holds_keys d keys vals.
Proof.
  rewrite map_result_Ok_iff. unfold holds_keys.
  split; intros H; (eapply Forall2_impl; [exact H|]); intros k v; cbn [getitem];
    destruct (dict_get d k); cbn [of_option]; congruence.
Qed.

Lemma np_group_converts {NdArray} (np_array : list json -> result NdArray) d keys a :
  np_group NdArray np_array (JObj d) keys = Ok a <-> group_converts np_array d keys a.
Proof.
  unfold np_group, group_converts. split.
  - destruct (map_result (getitem (JObj d)) keys) as [vals|] eqn:E; cbn [rbind];
      [|discriminate].
    intros H. exists vals. split; [now apply holds_keys_getitem | exact H].
  - intros (vals & Hk & Ha). apply holds_keys_getitem in Hk. now rewrite Hk.
Qed.

Lemma np_group_missing_key {NdArray} (np_array : list json -> result NdArray)
    d ks1 k ks2 :
  Forall (fun k' => dict_in k' d = true) ks1 ->
  dict_get d k = None ->
  np_group NdArray np_array (JObj d) (ks1 ++ k :: ks2) = Raise (KeyError (JStr k)).
Proof.
  intros H1 Hk. unfold np_group. rewrite (map_result_first_failure _ _ _ _ (KeyError (JStr k))).
  - reflexivity.
  - eapply Forall_impl; [exact H1|]. intros k' Hin. unfold dict_in in Hin.
    cbn [getitem]. destruct (dict_get d k') as [v|]; [eauto | discriminate].
  - cbn [getitem]. now rewrite Hk.
Qed.

Lemma np_group_conversion_raises {NdArray} (np_array : list json -> result NdArray)
    d keys vals e :
  holds_keys d keys vals -> np_array vals = Raise e ->
  np_group NdArray np_array (JObj d) keys = Raise e.
Proof.
  intros Hk He. apply holds_keys_getitem in Hk. unfold np_group. now rewrite Hk.
Qed.

Lemma robtarget_of_state_groups {NdArray} (np_array : list json -> result NdArray) state :
  robtarget_of_state NdArray np_array state
  = let? l := map_result (np_group NdArray np_array state) robtarget_groups in
    match l with
    | [a; b; c; x] => Ok {| trans := a; rot := b; robconf := c; extax := x |}
    | _ => Raise TypeError
    end.
Proof.
  unfold robtarget_of_state, robtarget_groups. cbn [map_result].
  destruct (np_group NdArray np_array state trans_keys); cbn [rbind]; [|reflexivity].
  destruct (np_group NdArray np_array state rot_keys); cbn [rbind]; [|reflexivity].
  destruct (np_group NdArray np_array state robconf_keys); cbn [rbind]; [|reflexivity].
  destruct (np_group NdArray np_array state extax_keys); reflexivity.
Qed.

(** A state that is no dict yields no group. *)
Lemma np_group_needs_dict {NdArray} (np_array : list json -> result NdArray) state a :
  np_group NdArray np_array state trans_keys = Ok a -> exists d, state = JObj d.
Proof.
  destruct state as [| | | | |d]; try discriminate. eauto.
Qed.

(** C5, as the code has it: [get_robtarget] builds a [RobTarget] exactly when
    the response is a dict whose [state[0]] is a dict that yields all four
    groups, each converted by [np.array]. Otherwise it raises the exception
    of the step that failed first: [TypeError] for a [None] response,
    [KeyError] for a response without [state], [IndexError] for an empty
    [state], [KeyError] naming the first missing key of the first incomplete
    group, or whatever [np.array] raised on the first group it could not
    convert. *)
Theorem get_robtarget_needs_all_four_groups :
  forall W (tr : Request -> W -> Outcome * W) NdArray
         (np_array : list json -> result NdArray) mechunit tool wobj coordinate st,
    let run :=
      fst (get_robtarget W tr NdArray np_array mechunit tool wobj coordinate st) in
    exists answer,
      fst (_do_get W tr (robtarget_url mechunit tool wobj coordinate) st) = Ok answer /\
      (forall rt,
          run = Ok rt <->
          exists doc d rest,
            answer = JObj doc /\
            dict_get doc "state" = Some (JArr (JObj d :: rest)) /\
            group_converts np_array d trans_keys (trans rt) /\
            group_converts np_array d rot_keys (rot rt) /\
            group_converts np_array d robconf_keys (robconf rt) /\
            group_converts np_array d extax_keys (extax rt)) /\
      (answer = JNull -> run = Raise TypeError) /\
      (forall doc, answer = JObj doc -> dict_get doc "state" = None ->
                   run = Raise (KeyError (JStr "state"))) /\
      (forall doc, answer = JObj doc -> dict_get doc "state" = Some (JArr []) ->
                   run = Raise IndexError) /\
      (forall doc d rest before g after,
          answer = JObj doc ->
          dict_get doc "state" = Some (JArr (JObj d :: rest)) ->
          robtarget_groups = before ++ g :: after ->
          Forall (fun b => exists a, group_converts np_array d b a) before ->
          (forall ks1 k ks2,
              g = ks1 ++ k :: ks2 ->
              Forall (fun k' => dict_in k' d = true) ks1 ->
              dict_get d k = None ->
              run = Raise (KeyError (JStr k))) /\
          (forall vals e,
              holds_keys d g vals -> np_array vals = Raise e -> run = Raise e)).
Proof.
  intros W tr NdArray np_array mechunit tool wobj coordinate st run.
  destruct (do_get_total tr (robtarget_url mechunit tool wobj coordinate) st)
    as (answer & w' & Hget).
  exists answer. split; [now rewrite Hget|].
  assert (run = let? s := getitem answer "state" in
                let? state := getitem0 s in
                robtarget_of_state NdArray np_array state) as Hrun.
  { subst run. unfold get_robtarget. now rewrite (bind_ok _ _ _ _ _ Hget). }
  rewrite Hrun. clear Hrun run Hget.
  assert (forall doc d rest,
             answer = JObj doc ->
             dict_get doc "state" = Some (JArr (JObj d :: rest)) ->
             (let? s := getitem answer "state" in
              let? state := getitem0 s in
              robtarget_of_state NdArray np_array state)
             = robtarget_of_state NdArray np_array (JObj d)) as Hstate.
  { intros doc d rest -> Hs. cbn [getitem]. now rewrite Hs. }
  split; [|split; [|split; [|split]]].
  - intros rt. split.
    + destruct answer as [| | | | |doc]; try discriminate. cbn [getitem].
      destruct (dict_get doc "state") as [s|] eqn:Hs; cbn [of_option rbind];
        [|discriminate].
      destruct (getitem0 s) as [state|] eqn:H0; cbn [rbind]; [|discriminate].
      unfold robtarget_of_state.
      destruct (np_group NdArray np_array state trans_keys) as [a|] eqn:Ha;
        cbn [rbind]; [|discriminate].
      destruct (np_group_needs_dict _ _ _ Ha) as [d ->].
      destruct (np_group NdArray np_array (JObj d) rot_keys) as [b|] eqn:Hb;
        cbn [rbind]; [|discriminate].
      destruct (np_group NdArray np_array (JObj d) robconf_keys) as [c|] eqn:Hc;
        cbn [rbind]; [|discriminate].
      destruct (np_group NdArray np_array (JObj d) extax_keys) as [x|] eqn:Hx;
        cbn [rbind]; [|discriminate].
      intros H; inversion H; subst rt. cbn [trans rot robconf extax].
      destruct s as [| | |str|[|first rest]|]; try discriminate H0.
      * destruct str; discriminate H0.
      * cbn [getitem0] in H0. inversion H0; subst first.
        exists doc, d, rest. rewrite <- !np_group_converts. auto 10.
    + intros (doc & d & rest & Hdoc & Hs & Ha & Hb & Hc & Hx).
      rewrite (Hstate doc d rest Hdoc Hs). unfold robtarget_of_state.
      apply np_group_converts in Ha, Hb, Hc, Hx. rewrite Ha, Hb, Hc, Hx.
      cbn [rbind]. now destruct rt.
  - now intros ->.
  - intros doc -> Hs. cbn [getitem]. now rewrite Hs.
  - intros doc -> Hs. cbn [getitem]. now rewrite Hs.
  - intros doc d rest before g after Hdoc Hs Hgroups Hbefore.
    rewrite (Hstate doc d rest Hdoc Hs), robtarget_of_state_groups, Hgroups.
    assert (Forall (fun b => exists a, np_group NdArray np_array (JObj d) b = Ok a)
              before) as Hb.
    { eapply Forall_impl; [exact Hbefore|]. intros b [a Ha]. exists a.
      now apply np_group_converts. }
    split.
    + intros ks1 k ks2 -> Hks1 Hk.
      now rewrite (map_result_first_failure _ _ _ _ _ Hb
                     (np_group_missing_key np_array d ks1 k ks2 Hks1 Hk)).
    + intros vals e Hvals He.
      now rewrite (map_result_first_failure _ _ _ _ _ Hb
                     (np_group_conversion_raises np_array d g vals e Hvals He)).
Qed.

Lemma get_robtarget_needs_all_four_groups_witness :
  fst (get_robtarget _ Bench.scripted _ Bench.np_array_int
         "ROB_1" "tool0" "wobj0" "Base"
         (Bench.script
            [Bench.reply 200 (JsonDoc (Bench.state0 (JObj robtarget_state_full)))]))
  = Ok {| trans := [600; 0; 800]%Z; rot := [1; 0; 0; 0]%Z;
          robconf := [0; 0; 0; 0]%Z; extax := [9; 9; 9; 9; 9; 9]%Z |} /\
  fst (get_robtarget _ Bench.scripted _ Bench.np_array_int
         "ROB_1" "tool0" "wobj0" "Base"
         (Bench.script
            [Bench.reply 200 (JsonDoc (Bench.state0 (JObj robtarget_state_no_rot)))]))
  = Raise (KeyError (JStr "q1")).
Proof.
  split.
  - destruct (get_robtarget_needs_all_four_groups _ Bench.scripted _ Bench.np_array_int
                "ROB_1" "tool0" "wobj0" "Base"
                (Bench.script
                   [Bench.reply 200
                      (JsonDoc (Bench.state0 (JObj robtarget_state_full)))]))
      as (answer & Hget & Hbuilt & _).
    apply Hbuilt. injection Hget as <-.
    exists [("state", JArr [JObj robtarget_state_full])], robtarget_state_full, [].
    repeat (split; [reflexivity|]).
    cbn [trans rot robconf extax]. unfold group_converts, holds_keys.
    split; [|split; [|split]]; eexists; (split; [repeat constructor | reflexivity]).
  - destruct (get_robtarget_needs_all_four_groups _ Bench.scripted _ Bench.np_array_int
                "ROB_1" "tool0" "wobj0" "Base"
                (Bench.script
                   [Bench.reply 200
                      (JsonDoc (Bench.state0 (JObj robtarget_state_no_rot)))]))
      as (answer & Hget & _ & _ & _ & _ & Hstep).
    injection Hget as <-.
    destruct (Hstep [("state", JArr [JObj robtarget_state_no_rot])]
                robtarget_state_no_rot [] [trans_keys] rot_keys
                [robconf_keys; extax_keys] eq_refl eq_refl eq_refl) as [Hkey _].
    + constructor; [|constructor]. exists [600; 0; 800]%Z.
      eexists. split; [repeat constructor | reflexivity].
    + apply (Hkey [] "q1" ["q2"; "q3"; "q4"]); [reflexivity | constructor | reflexivity].
Defined.

(** C5 as stated fails: a response with the translation and no rotation makes
    [state["q1"]] raise [KeyError], a key-access fault; the code has no
    [MalformedResponseError]. *)
Lemma get_robtarget_missing_group_is_KeyError :
  let run := get_robtarget _ Bench.scripted _ Bench.np_array_int
               "ROB_1" "tool0" "wobj0" "Base"
               (Bench.script
                  [Bench.reply 200
                     (JsonDoc (Bench.state0
                                 (JObj [("x", JStr "600"); ("y", JStr "0");
                                        ("z", JStr "800")])))]) in
  fst run = Raise (KeyError (JStr "q1")) /\
  exc_class (KeyError (JStr "q1")) <> "MalformedResponseError".
Proof. split; [reflexivity | discriminate]. Qed.

(** ** Starting tasks *)

(** [get_tasks] sends its one GET and nothing else, whatever comes back. *)
Lemma get_tasks_sends_one_get {W} (tr : Request -> W -> Outcome * W) st :
  snd (get_tasks W tr st)
  = {| world := snd (tr (get_request "rw/rapid/tasks") (world st));
       sent := sent st ++ [get_request "rw/rapid/tasks"] |}.
Proof.
  unfold get_tasks.
  destruct (tr (get_request "rw/rapid/tasks") (world st)) as [o w'] eqn:Htr.
  rewrite (bind_ok _ _ _ _ _ (do_get_run _ _ _ _ _ Htr)).
  now destruct (is_None (get_value o)).
Qed.

Lemma unknown_task_found tasks (rob_tasks : dict TaskState) t :
  In t tasks -> dict_in t rob_tasks = false ->
  exists t0, unknown_task tasks rob_tasks = Some t0 /\
             In t0 tasks /\ dict_in t0 rob_tasks = false.
Proof.
  intros Hin Hno. unfold unknown_task.
  destruct (find (fun t => negb (dict_in t rob_tasks)) tasks) as [t0|] eqn:F.
  - exists t0. apply find_some in F as [? F]. apply negb_true_iff in F. auto.
  - apply (find_none _ _ F) in Hin. rewrite Hno in Hin. discriminate.
Qed.

(** C10: when a requested task is not in the table that [get_tasks] returned,
    [start] raises [Exception("Cannot start unknown task ...")] naming such a
    task. It has then sent the GET of [get_tasks] and no other request, so no
    activation, deactivation or start request reached the controller. *)
Theorem start_unknown_task_raises_before_any_post :
  forall W (tr : Request -> W -> Outcome * W) cycle tasks st rob_tasks st' t,
    get_tasks W tr st = (Ok rob_tasks, st') ->
    In t tasks ->
    dict_in t rob_tasks = false ->
    exists t0,
      In t0 tasks /\ dict_in t0 rob_tasks = false /\
      start W tr cycle tasks st
      = (Raise (Exception ("Cannot start unknown task " +:+ t0)), st') /\
      sent st' = sent st ++ [get_request "rw/rapid/tasks"] /\
      world st' = snd (tr (get_request "rw/rapid/tasks") (world st)).
Proof.
  intros W tr cycle tasks st rob_tasks st' t Hget Hin Hno.
  destruct (unknown_task_found _ _ _ Hin Hno) as (t0 & Hu & Hin0 & Hno0).
  exists t0. repeat split; auto.
  - unfold start. rewrite (bind_ok _ _ _ _ _ Hget). now rewrite Hu.
  - pose proof (get_tasks_sends_one_get tr st) as Hs. rewrite Hget in Hs.
    cbn [snd] in Hs. now rewrite Hs.
  - pose proof (get_tasks_sends_one_get tr st) as Hs. rewrite Hget in Hs.
    cbn [snd] in Hs. now rewrite Hs.
Qed.

Lemma start_unknown_task_raises_before_any_post_witness :
  let after_get := {| world := ([] : list Outcome);
                      sent := [get_request "rw/rapid/tasks"] |} in
  exists t0,
    In t0 ["T_ROB1"; "T_ROB9"] /\
    dict_in t0 table_two_robots = false /\
    start _ Bench.scripted "asis" ["T_ROB1"; "T_ROB9"] (Bench.script [tasks_two_robots])
    = (Raise (Exception ("Cannot start unknown task " +:+ t0)), after_get) /\
    sent after_get
    = sent (Bench.script [tasks_two_robots]) ++ [get_request "rw/rapid/tasks"] /\
    world after_get
    = snd (Bench.scripted (get_request "rw/rapid/tasks")
             (world (Bench.script [tasks_two_robots]))).
Proof.
  apply (start_unknown_task_raises_before_any_post _ Bench.scripted "asis"
           ["T_ROB1"; "T_ROB9"] (Bench.script [tasks_two_robots])
           table_two_robots
           {| world := ([] : list Outcome); sent := [get_request "rw/rapid/tasks"] |}
           "T_ROB9").
  - reflexivity.
  - simpl. auto.
  - reflexivity.
Defined.

(** ** RAPID variables *)

Lemma str_app_assoc (a b c : string) : (a +:+ b) +:+ c = a +:+ (b +:+ c).
Proof.
  induction a as [|x a IH]; [reflexivity|].
  change (String x ((a +:+ b) +:+ c) = String x (a +:+ (b +:+ c))).
  now rewrite IH.
Qed.

(** With a task given, [RWS2] writes and reads a variable at the same URL. *)
Lemma rws2_set_and_get_same_url var t :
  rapid_set_url var (Some t) = rapid_get_url var (Some t).
Proof.
  unfold rapid_set_url, rapid_get_url, fmt_opt.
  now rewrite !str_app_assoc.
Qed.

(** Without a task, [set_rapid_variable] leaves the task out of the URL and
    [get_rapid_variable] formats [None] into it. *)
Example rws2_urls_without_task :
  rapid_set_url "test_num" None
  = "rw/rapid/symbol/RAPID/test_num/data?mastership=implicit" /\
  rapid_get_url "test_num" None
  = "rw/rapid/symbol/RAPID/None/test_num/data?mastership=implicit".
Proof. split; reflexivity. Qed.

Lemma mock_get_after_set {F} (str_of_float : F -> string) var task value m :
  Mock.get_rapid_variable var task
    (Mock.set_rapid_variable F str_of_float var value task m)
  = Mock.py_str F str_of_float value.
Proof.
  unfold Mock.get_rapid_variable, Mock.set_rapid_variable. simpl.
  now rewrite lookup_insert_eq.
Qed.

(** X20: on the mock, reading a variable right after setting it gives
    [str(value)], for every name, task and value; and for a float [x] that
    [str] and [float] carry back to itself, [set_rapid_variable_num] followed
    by [get_rapid_variable_num] gives [x]. *)
Theorem rapid_variable_round_trip :
  forall F (str_of_float : F -> string) (float_of_str : string -> option F)
         var task (value : Mock.PyVal F) (x : F) m,
    float_of_str (str_of_float x) = Some x ->
    Mock.get_rapid_variable var task
      (Mock.set_rapid_variable F str_of_float var value task m)
    = Mock.py_str F str_of_float value /\
    Mock.get_rapid_variable_num F float_of_str var task
      (Mock.set_rapid_variable_num F str_of_float var x task m)
    = Ok x.
Proof.
  intros F str_of_float float_of_str var task value x m Hx. split.
  - apply mock_get_after_set.
  - unfold Mock.get_rapid_variable_num, Mock.set_rapid_variable_num.
    rewrite mock_get_after_set. simpl. now rewrite Hx.
Qed.

Lemma rapid_variable_round_trip_witness :
  Mock.get_rapid_variable "test_num" (Some "T_ROB1")
    (Mock.set_rapid_variable Z Bench.str_of_float_int "test_num" (Mock.VInt 42)
       (Some "T_ROB1") Mock.init)
  = Mock.py_str Z Bench.str_of_float_int (Mock.VInt 42) /\
  Mock.get_rapid_variable_num Z Bench.float_of_str_int "test_num" (Some "T_ROB1")
    (Mock.set_rapid_variable_num Z Bench.str_of_float_int "test_num" 42%Z
       (Some "T_ROB1") Mock.init)
  = Ok 42%Z.
Proof.
  apply (rapid_variable_round_trip Z Bench.str_of_float_int Bench.float_of_str_int
           "test_num" (Some "T_ROB1") (Mock.VInt 42) 42%Z Mock.init).
  reflexivity.
Defined.

Example mock_round_trip_values :
  Mock.py_str Z Bench.str_of_float_int (Mock.VInt 42) = "42" /\
  Mock.py_str Z Bench.str_of_float_int (Mock.VStr "[1,2]") = "[1,2]" /\
  Mock.py_str Z Bench.str_of_float_int (Mock.VFloat 42%Z) = "42.0".
Proof. repeat split; reflexivity. Qed.

(** C8 fails on the client for the task [None]: [set_rapid_variable] writes
    the variable at [RAPID/test_num], [get_rapid_variable] then reads
    [RAPID/None/test_num], the variable of a task called None. On a
    controller that keeps each symbol by its URL the write succeeds and the
    read that follows raises [TypeError]: the GET is answered 404, [_do_get]
    returns [None] and [res_json["state"]] subscripts it. With the task
    T_ROB1 the same controller gives the value back. *)
Theorem rws2_round_trip_fails_without_task :
  let written := set_rapid_variable _ Bench.symbol_store "test_num" "42" None
                   Bench.empty_store in
  let read := get_rapid_variable _ Bench.symbol_store "test_num" None (snd written) in
  let written' := set_rapid_variable _ Bench.symbol_store "test_num" "42"
                    (Some "T_ROB1") Bench.empty_store in
  let read' := get_rapid_variable _ Bench.symbol_store "test_num" (Some "T_ROB1")
                 (snd written') in
  fst written = Ok tt /\
  sent (snd written)
  = [post_request "rw/mastership/request" None;
     post_request "rw/rapid/symbol/RAPID/test_num/data?mastership=implicit"
       (Some [("value", "42")]);
     post_request "rw/mastership/release" None] /\
  fst read = Raise TypeError /\
  sent (snd read)
  = sent (snd written)
    ++ [get_request "rw/rapid/symbol/RAPID/None/test_num/data?mastership=implicit"] /\
  fst written' = Ok tt /\
  fst read' = Ok (JStr "42").
Proof. repeat split; reflexivity. Qed.

(** ** Signals *)


Lemma get_digital_io_run {W} (tr : Request -> W -> Outcome * W) signal network unit st :
  fst (get_digital_io W tr signal network unit st)
  = rbind (fst (get_io W tr signal network unit st)) py_int.
Proof.
  unfold get_digital_io, bind, lift.
  now destruct (get_io W tr signal network unit st) as [[v|e] st'].
Qed.

(** On the mock a digital signal reads back what was written, whatever
    network and unit either call names. *)
Lemma mock_digital_io_read_after_write signal value n u n' u' m :
  Mock.get_digital_io signal n u (Mock.set_digital_io signal value n' u' m)
  = if (value =? 0)%Z then 0%Z else 1%Z.
Proof.
  unfold Mock.get_digital_io, Mock.set_digital_io. simpl.
  now rewrite lookup_insert_eq.
Qed.





(** ** Strings and dicts *)

Lemma str_length_app (a b : string) :
  String.length (a +:+ b) = (String.length a + String.length b)%nat.
Proof.
  induction a as [|x a IH]; [reflexivity|].
  change (S (String.length (a +:+ b)) = S (String.length a + String.length b)).
  now rewrite IH.
Qed.

Lemma dict_get_None {V} (d : dict V) k :
  dict_get d k = None <-> ~ In k (dict_keys d).
Proof.
  induction d as [|[k' v] d IH]; simpl; [tauto|].
  destruct (String.eqb_spec k' k) as [->|Hne].
  - split; [discriminate | intros H; exfalso; auto].
  - rewrite IH. tauto.
Qed.


Lemma str_in_In x l : str_in x l = true <-> In x l.
Proof.
  induction l as [|y l IH]; cbn [str_in In]; [split; [discriminate | tauto]|].
  rewrite orb_true_iff, IH. destruct (String.eqb_spec y x); intuition discriminate.
Qed.

(** * Further properties *)

(** ** One POST *)

Lemma do_post_run {W} (tr : Request -> W -> Outcome * W) u p st :
  exists j,
    _do_post W tr u p st
    = (rbind (post_result (fst (tr (post_request u p) (world st)))) (fun _ => Ok j),
       {| world := snd (tr (post_request u p) (world st));
          sent := sent st ++ [post_request u p] |}).
Proof.
  unfold _do_post, send.
  destruct (tr (post_request u p) (world st)) as [[|r] w']; cbn [fst snd post_result].
  - exists JNull. reflexivity.
  - unfold raise_for_status, has_content, response_json.
    destruct (status_code r =? 403)%Z eqn:E.
    + apply Z.eqb_eq in E. rewrite E. cbn. exists JNull. reflexivity.
    + cbn [rbind].
      destruct ((400 <=? status_code r)%Z && (status_code r <? 600)%Z);
        [exists JNull; reflexivity|].
      destruct (content r); eexists; reflexivity.
Qed.

(** A method that is one [_do_post] and a [return]. *)
Lemma post_only_run {W} (tr : Request -> W -> Outcome * W) u p st :
  bind W (_do_post W tr u p) (fun _ => ret W tt) st
  = (post_result (fst (tr (post_request u p) (world st))),
     {| world := snd (tr (post_request u p) (world st));
        sent := sent st ++ [post_request u p] |}).
Proof.
  destruct (do_post_run tr u p st) as [j H]. unfold bind. rewrite H.
  now destruct (post_result (fst (tr (post_request u p) (world st)))) as [[]|e].
Qed.


(** ** The requests of a variable write *)

(** What [set_rapid_variable] does, outcome by outcome. *)
Lemma set_rapid_variable_run {W} (tr : Request -> W -> Outcome * W) var value task st :
  let q1 := post_request "rw/mastership/request" None in
  let q2 := post_request (rapid_set_url var task) (Some [("value", value)]) in
  let q3 := post_request "rw/mastership/release" None in
  let t1 := tr q1 (world st) in
  let t2 := tr q2 (snd t1) in
  let t3 := tr q3 (snd t2) in
  set_rapid_variable W tr var value task st
  = match fst t1 with
    | Failed => (Raise RequestException, {| world := snd t1; sent := sent st ++ [q1] |})
    | Replied _ =>
        match post_result (fst t2) with
        | Raise e => (Raise e, {| world := snd t2; sent := sent st ++ [q1; q2] |})
        | Ok _ =>
            (match fst t3 with
             | Failed => Raise RequestException
             | Replied _ => Ok tt
             end,
             {| world := snd t3; sent := sent st ++ [q1; q2; q3] |})
        end
    end.
Proof.
  intros q1 q2 q3 t1 t2 t3.
  unfold set_rapid_variable, request_mastership, release_mastership.
  pose proof (mastership_post_run tr "rw/mastership/request" st) as H1.
  cbv zeta in H1. fold q1 t1 in H1.
  destruct (fst t1) as [|r1].
  { now rewrite (bind_raise _ _ _ _ _ H1). }
  rewrite (bind_ok _ _ _ _ _ H1).
  match goal with
  | |- bind W (_do_post W tr ?u ?p) ?k ?s = _ =>
      destruct (do_post_run tr u p s) as [j Hp]
  end.
  cbn [world sent] in Hp. fold q2 t2 in Hp.
  destruct (post_result (fst t2)) as [[]|e]; cbn [rbind] in Hp.
  - rewrite (bind_ok _ _ _ _ _ Hp), mastership_post_run. cbn [world sent].
    fold q3 t3. now rewrite <- !app_assoc.
  - rewrite (bind_raise _ _ _ _ _ Hp). now rewrite <- app_assoc.
Qed.

(** X1: whenever [set_rapid_variable] returns, it has sent exactly the
    mastership request, the write and the mastership release, in this order:
    the release was its last request, and the arbiter is [Released]. *)
Theorem set_rapid_variable_returns_released :
  forall W (tr : Request -> W -> Outcome * W) var value task st st',
    set_rapid_variable W tr var value task st = (Ok tt, st') ->
    sent st' = sent st ++ write_requests var value task /\
    last (sent st') = Some (post_request "rw/mastership/release" None) /\
    arbiter (sent st') = Released.
Proof.
  intros W tr var value task st st' H.
  rewrite set_rapid_variable_run in H. cbv zeta in H.
  assert (sent st' = sent st ++ write_requests var value task) as Hsent.
  { destruct (fst (tr (post_request "rw/mastership/request" None) (world st)));
      [discriminate|].
    match type of H with
    | context [post_result ?o] => destruct (post_result o)
    end; [|discriminate].
    now inversion H. }
  split; [exact Hsent|]. rewrite Hsent. unfold write_requests.
  change [post_request "rw/mastership/request" None;
          post_request (rapid_set_url var task) (Some [("value", value)]);
          post_request "rw/mastership/release" None]
    with ([post_request "rw/mastership/request" None;
           post_request (rapid_set_url var task) (Some [("value", value)])]
          ++ [post_request "rw/mastership/release" None]).
  rewrite app_assoc. split; [apply last_snoc | now rewrite arbiter_app].
Qed.

Lemma set_rapid_variable_returns_released_witness :
  let run := set_rapid_variable _ Bench.scripted "test_num" "42" (Some "T_ROB1")
               (Bench.script [Bench.reply 204 NoContent; Bench.reply 204 NoContent;
                              Bench.reply 204 NoContent]) in
  sent (snd run)
  = sent (Bench.script [Bench.reply 204 NoContent; Bench.reply 204 NoContent;
                        Bench.reply 204 NoContent])
    ++ write_requests "test_num" "42" (Some "T_ROB1") /\
  last (sent (snd run)) = Some (post_request "rw/mastership/release" None) /\
  arbiter (sent (snd run)) = Released.
Proof.
  apply (set_rapid_variable_returns_released _ Bench.scripted "test_num" "42"
           (Some "T_ROB1")
           (Bench.script [Bench.reply 204 NoContent; Bench.reply 204 NoContent;
                          Bench.reply 204 NoContent])).
  reflexivity.
Defined.

(** X2: on every transport, how far [set_rapid_variable] gets is decided by
    the answers, and the requests it has sent are the mastership request, the
    write and the mastership release up to that point. A mastership request
    that fails ends it after one request with [RequestException]. A write
    that fails, or is answered 403, ends it after two, with
    [UnboundLocalError] or the mastership [ABBException], and no release is
    sent. In every other case, error statuses other than 403 included, all
    three are sent, and the call returns unless the release call fails. *)
Theorem set_rapid_variable_request_order :
  forall W (tr : Request -> W -> Outcome * W) var value task st,
    let q1 := post_request "rw/mastership/request" None in
    let q2 := post_request (rapid_set_url var task) (Some [("value", value)]) in
    let q3 := post_request "rw/mastership/release" None in
    let o1 := fst (tr q1 (world st)) in
    let w1 := snd (tr q1 (world st)) in
    let o2 := fst (tr q2 w1) in
    let w2 := snd (tr q2 w1) in
    let o3 := fst (tr q3 w2) in
    let run := set_rapid_variable W tr var value task st in
    match o1 with
    | Failed =>
        fst run = Raise RequestException /\ sent (snd run) = sent st ++ [q1]
    | Replied _ =>
        match o2 with
        | Failed =>
            fst run = Raise UnboundLocalError /\
            sent (snd run) = sent st ++ [q1; q2]
        | Replied r2 =>
            if (status_code r2 =? 403)%Z
            then fst run
                 = Raise (ABBException "Mastership required for this operation" 403) /\
                 sent (snd run) = sent st ++ [q1; q2]
            else fst run = match o3 with
                           | Failed => Raise RequestException
                           | Replied _ => Ok tt
                           end /\
                 sent (snd run) = sent st ++ [q1; q2; q3]
        end
    end.
Proof.
  intros W tr var value task st q1 q2 q3 o1 w1 o2 w2 o3 run.
  subst run. rewrite set_rapid_variable_run. cbv zeta.
  fold q1 q2 q3. fold o1 w1. fold o2 w2. fold o3.
  destruct o1 as [|r1]; [split; reflexivity|].
  destruct o2 as [|r2]; cbn [post_result]; [split; reflexivity|].
  destruct (status_code r2 =? 403)%Z; split; reflexivity.
Qed.

(** ** The requests of start *)

Lemma start_step_run {W} (tr : Request -> W -> Outcome * W) tasks t st :
  sent (snd (start_step W tr tasks t st)) = sent st ++ task_requests tasks t.
Proof.
  unfold start_step, task_requests, activate_task, deactivate_task,
    activate_request, deactivate_request.
  destruct (motiontask t); cbn [negb]; [|cbn; now rewrite app_nil_r].
  destruct (str_in (name t) tasks), (active t); cbn [negb];
    try (cbn; now rewrite app_nil_r); now rewrite post_only_run.
Qed.

Lemma for_each_start_step {W} (tr : Request -> W -> Outcome * W) tasks l : forall st,
  exists done rest,
    flat_map (task_requests tasks) l = done ++ rest /\
    sent (snd (for_each W l (start_step W tr tasks) st)) = sent st ++ done /\
    (fst (for_each W l (start_step W tr tasks) st) = Ok tt -> rest = []).
Proof.
  induction l as [|t l IH]; intros st; cbn [for_each flat_map].
  - exists [], []. cbn. rewrite app_nil_r. auto.
  - pose proof (start_step_run tr tasks t st) as Hs. unfold bind.
    destruct (start_step W tr tasks t st) as [[[]|e] st1]; cbn [snd] in Hs.
    + destruct (IH st1) as (done & rest & Hplan & Hsent & Hok).
      exists (task_requests tasks t ++ done), rest.
      rewrite Hplan, Hsent, Hs, <- !app_assoc. auto.
    + exists (task_requests tasks t), (flat_map (task_requests tasks) l).
      cbn [fst snd]. repeat split; [exact Hs | discriminate].
Qed.

(** X3: on every transport, once [get_tasks] has returned a table that holds
    every requested name, what [start] sends next is an initial part of its
    plan: in table order, one activation for each idle requested motion task
    and one deactivation for each active motion task that was not requested,
    nothing for any other task, then the start request. It is the whole plan
    when [start] returns. *)
Theorem start_sends_a_prefix_of_its_plan :
  forall W (tr : Request -> W -> Outcome * W) cycle tasks st rob_tasks st1,
    get_tasks W tr st = (Ok rob_tasks, st1) ->
    unknown_task tasks rob_tasks = None ->
    exists done rest,
      start_plan cycle tasks rob_tasks = done ++ rest /\
      sent (snd (start W tr cycle tasks st)) = sent st1 ++ done /\
      (fst (start W tr cycle tasks st) = Ok tt -> rest = []).
Proof.
  intros W tr cycle tasks st rob_tasks st1 Hget Hknown.
  unfold start, start_plan. rewrite (bind_ok _ _ _ _ _ Hget), Hknown.
  destruct (for_each_start_step tr tasks (dict_values rob_tasks) st1)
    as (done & rest & Hplan & Hsent & Hok).
  destruct (for_each W (dict_values rob_tasks) (start_step W tr tasks) st1)
    as [[[]|e] st2] eqn:Hloop; cbn [fst snd] in *.
  - rewrite (bind_ok _ _ _ _ _ Hloop).
    rewrite (Hok eq_refl), app_nil_r in Hplan.
    rewrite post_only_run. fold (start_request cycle). cbn [fst snd sent].
    exists (done ++ [start_request cycle]), [].
    rewrite Hplan, Hsent, app_nil_r, <- app_assoc. auto.
  - rewrite (bind_raise _ _ _ _ _ Hloop). cbn [fst snd].
    exists done, (rest ++ [start_request cycle]).
    rewrite Hplan, <- app_assoc. repeat split; [exact Hsent | discriminate].
Qed.

Lemma start_sends_a_prefix_of_its_plan_witness :
  let st := Bench.script [tasks_two_robots; Bench.reply 204 NoContent;
                          Bench.reply 403 NotJson] in
  let st1 := {| world := [Bench.reply 204 NoContent; Bench.reply 403 NotJson];
                sent := [get_request "rw/rapid/tasks"] |} in
  exists done rest,
    start_plan "asis" ["T_ROB1"] table_two_robots = done ++ rest /\
    sent (snd (start _ Bench.scripted "asis" ["T_ROB1"] st)) = sent st1 ++ done /\
    (fst (start _ Bench.scripted "asis" ["T_ROB1"] st) = Ok tt -> rest = []).
Proof.
  apply (start_sends_a_prefix_of_its_plan _ Bench.scripted "asis" ["T_ROB1"]
           (Bench.script [tasks_two_robots; Bench.reply 204 NoContent;
                          Bench.reply 403 NotJson])
           table_two_robots
           {| world := [Bench.reply 204 NoContent; Bench.reply 403 NotJson];
              sent := [get_request "rw/rapid/tasks"] |});
    reflexivity.
Defined.

(** The run of the witness: the activation is answered, the deactivation is
    refused with 403, and [start] raises with the start request unsent. *)
Example start_stops_at_403 :
  let run := start _ Bench.scripted "asis" ["T_ROB1"]
               (Bench.script [tasks_two_robots; Bench.reply 204 NoContent;
                              Bench.reply 403 NotJson]) in
  fst run = Raise (ABBException "Mastership required for this operation" 403) /\
  sent (snd run)
  = [get_request "rw/rapid/tasks"; activate_request "T_ROB1";
     deactivate_request "T_ROB2"].
Proof. split; reflexivity. Qed.

(** ** What start asks for, and what it does not check *)







(** ** The table of get_tasks *)

Lemma dict_set_keys {V} (d : dict V) k v :
  dict_keys (dict_set d k v)
  = if dict_in k d then dict_keys d else dict_keys d ++ [k].
Proof.
  unfold dict_in. induction d as [|[k' v'] d IH]; cbn [dict_set dict_get dict_keys map fst app];
    [reflexivity|].
  destruct (String.eqb k' k); cbn [dict_keys map fst]; [reflexivity|].
  unfold dict_keys in IH. rewrite IH. now destruct (dict_get d k).
Qed.

Lemma dict_set_keyed (d : dict TaskState) t :
  Forall (fun kv => fst kv = name (snd kv)) d ->
  Forall (fun kv => fst kv = name (snd kv)) (dict_set d (name t) t).
Proof.
  induction 1 as [|[k' v'] d Hk Hd IH]; cbn [dict_set].
  - repeat constructor.
  - destruct (String.eqb_spec k' (name t)) as [->|_]; constructor; cbn; auto.
Qed.

Lemma dict_set_NoDup {V} (d : dict V) k v :
  NoDup (dict_keys d) -> NoDup (dict_keys (dict_set d k v)).
Proof.
  intros Hnd. rewrite dict_set_keys. unfold dict_in.
  destruct (dict_get d k) eqn:E; [exact Hnd|].
  apply NoDup_app. repeat split; [exact Hnd| |apply NoDup_singleton].
  intros x Hx Hin. apply list_elem_of_singleton in Hin. subst x.
  apply dict_get_None in E. apply E. now apply list_elem_of_In.
Qed.

Lemma get_tasks_loop_keeps_names l : forall o o',
  get_tasks_loop o l = Ok o' ->
  Forall (fun kv => fst kv = name (snd kv)) o /\ NoDup (dict_keys o) ->
  Forall (fun kv => fst kv = name (snd kv)) o' /\ NoDup (dict_keys o').
Proof.
  induction l as [|s l IH]; intros o o' H [Hk Hnd]; cbn [get_tasks_loop] in H.
  - inversion H; subst. auto.
  - destruct (get_tasks_entry o s) as [o1|e] eqn:E; cbn [rbind] in H; [|discriminate].
    apply (IH _ _ H). unfold get_tasks_entry in E.
    destruct (contains "name" s) as [[]|]; cbn [rbind negb] in E; try discriminate.
    + destruct (TaskState_model_validate s) as [t|].
      * inversion E; subst. split; [now apply dict_set_keyed | now apply dict_set_NoDup].
      * destruct (dict_get_method s); cbn [rbind] in E; inversion E; subst; auto.
    + inversion E; subst; auto.
Qed.

(** X4: whatever the controller answers, a table that [get_tasks] returns
    holds every task under its own name, and no name twice. *)
Theorem get_tasks_table_is_keyed_by_name :
  forall W (tr : Request -> W -> Outcome * W) st table,
    fst (get_tasks W tr st) = Ok table ->
    Forall (fun kv => fst kv = name (snd kv)) table /\ NoDup (dict_keys table).
Proof.
  intros W tr st table. unfold get_tasks.
  destruct (do_get_total tr "rw/rapid/tasks" st) as (j & w' & Hget).
  rewrite (bind_ok _ _ _ _ _ Hget).
  destruct (is_None j).
  - cbn. intros H; inversion H; subst. split; constructor.
  - unfold lift. cbn [fst].
    destruct (getitem j "_embedded") as [e|]; cbn [rbind]; [|discriminate].
    destruct (getitem e "resources") as [r|]; cbn [rbind]; [|discriminate].
    destruct (iter r) as [l|]; cbn [rbind]; [|discriminate].
    intros H. apply (get_tasks_loop_keeps_names _ _ _ H). split; constructor.
Qed.

Lemma get_tasks_table_is_keyed_by_name_witness :
  Forall (fun kv => fst kv = name (snd kv))
    [("T_ROB1", {| name := "T_ROB1"; type := "normal"; taskstate := "started";
                   excstate := "ready"; active := true; motiontask := true |})] /\
  NoDup (dict_keys
           [("T_ROB1", {| name := "T_ROB1"; type := "normal"; taskstate := "started";
                          excstate := "ready"; active := true; motiontask := true |})]).
Proof.
  apply (get_tasks_table_is_keyed_by_name _ Bench.scripted
           (Bench.script
              [Bench.reply 200
                 (JsonDoc (Bench.embedded_resources
                             (map JObj [entry_T_ROB1; entry_T_ROB1; entry_broken])))])).
  reflexivity.
Defined.

(** ** Collections read entry by entry *)

(** X5: when the event log arrives as a list [l] of resources,
    [read_event_log] returns exactly when every element of [l] parses, and
    then one entry for each element, in order, each the parse of its
    element. When an element does not parse the call raises the exception of
    the first such element: it never returns part of the log. *)
Theorem read_event_log_is_all_or_nothing :
  forall W (tr : Request -> W -> Outcome * W) Datetime
         (strptime : string -> option Datetime) elog st r w' doc e log l,
    tr (get_request ("rw/elog/" +:+ str_of_int elog +:+ "/?lang=en")) (world st)
    = (Replied r, w') ->
    raise_for_status r = false ->
    content r = JsonDoc doc ->
    getitem doc "_embedded" = Ok e ->
    getitem e "resources" = Ok log ->
    iter log = Ok l ->
    let run := fst (read_event_log W tr Datetime strptime elog st) in
    (forall out,
        run = Ok out <->
        Forall2 (fun s entry => parse_log_entry Datetime strptime s = Ok entry) l out) /\
    (forall pre s post x,
        l = pre ++ s :: post ->
        Forall (fun s' => exists entry,
                    parse_log_entry Datetime strptime s' = Ok entry) pre ->
        parse_log_entry Datetime strptime s = Raise x ->
        run = Raise x).
Proof.
  intros W tr Datetime strptime elog st r w' doc e log l Htr Hs Hc He Hlog Hl run.
  assert (run = map_result (parse_log_entry Datetime strptime) l) as Hrun.
  { subst run. unfold read_event_log.
    rewrite (bind_ok _ _ _ _ _ (do_get_run _ _ _ _ _ Htr)).
    unfold get_value, lift. rewrite Hs, Hc. cbn [fst].
    rewrite He. cbn [rbind]. rewrite Hlog. cbn [rbind]. now rewrite Hl. }
  rewrite Hrun. split.
  - intros out. apply map_result_Ok_iff.
  - intros pre s post x -> Hpre Hx. now apply map_result_first_failure.
Qed.

Lemma read_event_log_is_all_or_nothing_witness :
  fst (read_event_log _ Bench.scripted _ Bench.strptime_padded 0
         (Bench.script
            [Bench.reply 200
               (JsonDoc (Bench.embedded_resources [JObj entry_argc2_argv1]))]))
  = Ok [parsed_argc2_argv1] /\
  fst (read_event_log _ Bench.scripted _ Bench.strptime_padded 0
         (Bench.script
            [Bench.reply 200
               (JsonDoc (Bench.embedded_resources
                           [JObj entry_argc2_argv1; JObj entry_T_ROB1]))]))
  = Raise (KeyError (JStr "_title")).
Proof.
  split.
  - destruct (read_event_log_is_all_or_nothing _ Bench.scripted _
                Bench.strptime_padded 0
                (Bench.script
                   [Bench.reply 200
                      (JsonDoc (Bench.embedded_resources [JObj entry_argc2_argv1]))])
                {| status_code := 200;
                   content := JsonDoc (Bench.embedded_resources
                                         [JObj entry_argc2_argv1]) |}
                [] (Bench.embedded_resources [JObj entry_argc2_argv1])
                (JObj [("resources", JArr [JObj entry_argc2_argv1])])
                (JArr [JObj entry_argc2_argv1]) [JObj entry_argc2_argv1]
                eq_refl eq_refl eq_refl eq_refl eq_refl eq_refl) as [Hreturns _].
    apply Hreturns. constructor; [reflexivity | constructor].
  - destruct (read_event_log_is_all_or_nothing _ Bench.scripted _
                Bench.strptime_padded 0
                (Bench.script
                   [Bench.reply 200
                      (JsonDoc (Bench.embedded_resources
                                  [JObj entry_argc2_argv1; JObj entry_T_ROB1]))])
                {| status_code := 200;
                   content := JsonDoc (Bench.embedded_resources
                                         [JObj entry_argc2_argv1; JObj entry_T_ROB1]) |}
                [] (Bench.embedded_resources [JObj entry_argc2_argv1; JObj entry_T_ROB1])
                (JObj [("resources", JArr [JObj entry_argc2_argv1; JObj entry_T_ROB1])])
                (JArr [JObj entry_argc2_argv1; JObj entry_T_ROB1])
                [JObj entry_argc2_argv1; JObj entry_T_ROB1]
                eq_refl eq_refl eq_refl eq_refl eq_refl eq_refl) as [_ Hraises].
    apply (Hraises [JObj entry_argc2_argv1] (JObj entry_T_ROB1) []).
    + reflexivity.
    + constructor; [|constructor]. exists parsed_argc2_argv1. reflexivity.
    + reflexivity.
Defined.

Lemma parse_ipc_state_type s m :
  Rws2Ops.parse_ipc_state s = Ok m -> getitem s "_type" = Ok (JStr "dipc-read-li").
Proof.
  unfold Rws2Ops.parse_ipc_state. intros Hm.
  destruct (getitem s "_type") as [ty|]; cbn [rbind] in Hm; [|discriminate].
  destruct ty as [| | |ty| |]; cbn [is_str negb] in Hm; try discriminate.
  destruct (String.eqb ty "dipc-read-li") eqn:E; cbn [negb] in Hm; [|discriminate].
  apply String.eqb_eq in E. now subst.
Qed.

(** X6: when the IPC queue answers with a list [l] of states,
    [read_ipc_message] returns exactly when every state parses, and then one
    message for each, in order, all of them of type [dipc-read-li]. A state
    of another type raises [Exception("Invalid IPC message type")]; the call
    raises the exception of the first state that does not parse, and nothing
    is returned. *)
Theorem read_ipc_message_is_all_or_nothing :
  forall W (tr : Request -> W -> Outcome * W) F (str_of_float : F -> string)
         queue timeout st r w' doc e states l,
    tr (get_request ("rw/dipc/" +:+ queue +:+ "/"
                     +:+ Rws2Ops.num_str F str_of_float timeout)) (world st)
    = (Replied r, w') ->
    raise_for_status r = false ->
    content r = JsonDoc doc ->
    getitem doc "_embedded" = Ok e ->
    getitem e "_state" = Ok states ->
    iter states = Ok l ->
    let run := fst (Rws2Ops.read_ipc_message W tr F str_of_float queue timeout st) in
    (forall out,
        run = Ok out <->
        Forall2 (fun s m => Rws2Ops.parse_ipc_state s = Ok m) l out) /\
    (forall out,
        run = Ok out ->
        Forall (fun s => getitem s "_type" = Ok (JStr "dipc-read-li")) l) /\
    (forall s ty,
        getitem s "_type" = Ok ty -> ty <> JStr "dipc-read-li" ->
        Rws2Ops.parse_ipc_state s = Raise (Exception "Invalid IPC message type")) /\
    (forall pre s post x,
        l = pre ++ s :: post ->
        Forall (fun s' => exists m, Rws2Ops.parse_ipc_state s' = Ok m) pre ->
        Rws2Ops.parse_ipc_state s = Raise x ->
        run = Raise x).
Proof.
  intros W tr F str_of_float queue timeout st r w' doc e states l
    Htr Hs Hc He Hst Hl run.
  assert (run = map_result Rws2Ops.parse_ipc_state l) as Hrun.
  { subst run. unfold Rws2Ops.read_ipc_message.
    rewrite (bind_ok _ _ _ _ _ (do_get_run _ _ _ _ _ Htr)).
    unfold get_value, lift. rewrite Hs, Hc. cbn [fst].
    rewrite He. cbn [rbind]. rewrite Hst. cbn [rbind]. now rewrite Hl. }
  rewrite Hrun. split; [|split; [|split]].
  - intros out. apply map_result_Ok_iff.
  - intros out Hout. apply map_result_Ok_iff in Hout. clear - Hout.
    induction Hout as [|s m l' out' Hm _ IH]; constructor; [|exact IH].
    exact (parse_ipc_state_type s m Hm).
  - intros s ty Hty Hne. unfold Rws2Ops.parse_ipc_state. rewrite Hty. cbn [rbind].
    destruct ty as [| | |t| |]; cbn [is_str negb]; try reflexivity.
    destruct (String.eqb_spec t "dipc-read-li") as [->|_]; [|reflexivity].
    now destruct Hne.
  - intros pre s post x -> Hpre Hx. now apply map_result_first_failure.
Qed.

Lemma read_ipc_message_is_all_or_nothing_witness :
  let queue_of l :=
    always (Bench.reply 200 (JsonDoc (JObj [("_embedded", JObj [("_state", JArr l)])]))) in
  let other := JObj [("_type", JStr "dipc-queue-li"); ("queue-name", JStr "MY_QUEUE")] in
  fst (Rws2Ops.read_ipc_message _ (queue_of [ipc_state_hello])
         Z Bench.str_of_float_int "MY_QUEUE" (Rws2Ops.NInt 5) nowhere)
  = Ok [{| Rws2Ops.data := "hello"; Rws2Ops.userdef := "1"; Rws2Ops.msgtype := "1";
           Rws2Ops.cmd := "111"; Rws2Ops.queue_name := "MY_QUEUE" |}] /\
  fst (Rws2Ops.read_ipc_message _ (queue_of [ipc_state_hello; other])
         Z Bench.str_of_float_int "MY_QUEUE" (Rws2Ops.NInt 5) nowhere)
  = Raise (Exception "Invalid IPC message type").
Proof.
  intros queue_of other. split.
  - destruct (read_ipc_message_is_all_or_nothing _ (queue_of [ipc_state_hello])
                Z Bench.str_of_float_int "MY_QUEUE" (Rws2Ops.NInt 5) nowhere
                {| status_code := 200;
                   content := JsonDoc (JObj [("_embedded",
                                              JObj [("_state", JArr [ipc_state_hello])])]) |}
                tt (JObj [("_embedded", JObj [("_state", JArr [ipc_state_hello])])])
                (JObj [("_state", JArr [ipc_state_hello])])
                (JArr [ipc_state_hello]) [ipc_state_hello]
                eq_refl eq_refl eq_refl eq_refl eq_refl eq_refl) as [Hreturns _].
    apply Hreturns. constructor; [reflexivity | constructor].
  - destruct (read_ipc_message_is_all_or_nothing _ (queue_of [ipc_state_hello; other])
                Z Bench.str_of_float_int "MY_QUEUE" (Rws2Ops.NInt 5) nowhere
                {| status_code := 200;
                   content := JsonDoc (JObj [("_embedded",
                                              JObj [("_state",
                                                     JArr [ipc_state_hello; other])])]) |}
                tt (JObj [("_embedded", JObj [("_state", JArr [ipc_state_hello; other])])])
                (JObj [("_state", JArr [ipc_state_hello; other])])
                (JArr [ipc_state_hello; other]) [ipc_state_hello; other]
                eq_refl eq_refl eq_refl eq_refl eq_refl eq_refl)
      as (_ & _ & Htype & Hraises).
    apply (Hraises [ipc_state_hello] other []).
    + reflexivity.
    + constructor; [|constructor]. eexists. reflexivity.
    + apply (Htype other (JStr "dipc-queue-li")); [reflexivity | discriminate].
Defined.

(** The request of a queue read. *)
Example read_ipc_message_request :
  sent (snd (Rws2Ops.read_ipc_message _ (always Failed)
               Z Bench.str_of_float_int "MY_QUEUE" (Rws2Ops.NInt 5) nowhere))
  = [get_request "rw/dipc/MY_QUEUE/5"].
Proof. reflexivity. Qed.

(** ** Readers on a failed GET *)

Lemma reader_on_failure {W A} (tr : Request -> W -> Outcome * W) u
    (k : json -> result A) st :
  gets_fail tr (world st) ->
  fst (bind W (_do_get W tr u) (fun res_json => lift W (k res_json)) st) = k JNull.
Proof.
  intros Hf. destruct (tr (get_request u) (world st)) as [o w'] eqn:Htr.
  rewrite (bind_ok _ _ _ _ _ (do_get_run _ _ _ _ _ Htr)).
  specialize (Hf u). rewrite Htr in Hf. cbn [fst] in Hf. now rewrite Hf.
Qed.

(** X7: when no GET delivers a JSON body (the call fails, the status is 4xx
    or 5xx, or the body is not JSON), the readers differ in what the caller
    sees: [get_tasks] returns an empty table, [get_jointtarget] raises
    [Exception("Failed to get joint target")], and every other reader raises
    [TypeError] from subscripting [None]. *)
Theorem readers_on_failed_get :
  forall W (tr : Request -> W -> Outcome * W) Datetime
         (strptime : string -> option Datetime) NdArray
         (np_array : list json -> result NdArray) F (str_of_float : F -> string)
         st task signal network unit var vtask elog mechunit tool wobj coordinate
         queue timeout,
    gets_fail tr (world st) ->
    fst (get_tasks W tr st) = Ok [] /\
    fst (Rws2Ops.get_jointtarget W tr NdArray np_array task st)
    = Raise (Exception "Failed to get joint target") /\
    fst (Rws2Ops.get_ramdisk_path W tr st) = Raise TypeError /\
    fst (Rws2Ops.get_execution_state W tr st) = Raise TypeError /\
    fst (Rws2Ops.get_controller_state W tr st) = Raise TypeError /\
    fst (Rws2Ops.get_operation_mode W tr st) = Raise TypeError /\
    fst (get_io W tr signal network unit st) = Raise TypeError /\
    fst (get_digital_io W tr signal network unit st) = Raise TypeError /\
    fst (get_rapid_variable W tr var vtask st) = Raise TypeError /\
    fst (read_event_log W tr Datetime strptime elog st) = Raise TypeError /\
    fst (get_robtarget W tr NdArray np_array mechunit tool wobj coordinate st)
    = Raise TypeError /\
    fst (Rws2Ops.read_ipc_message W tr F str_of_float queue timeout st)
    = Raise TypeError.
Proof.
  intros W tr Datetime strptime NdArray np_array F str_of_float st task signal
    network unit var vtask elog mechunit tool wobj coordinate queue timeout Hf.
  assert (fst (get_io W tr signal network unit st) = Raise TypeError) as Hio
    by (unfold get_io; now rewrite reader_on_failure).
  repeat split.
  - apply get_tasks_empty_on_failure. apply Hf.
  - unfold Rws2Ops.get_jointtarget.
    destruct (tr (get_request ("rw/rapid/tasks/" +:+ task +:+ "/motion/jointtarget"))
                (world st)) as [o w'] eqn:Htr.
    rewrite (bind_ok _ _ _ _ _ (do_get_run _ _ _ _ _ Htr)).
    specialize (Hf ("rw/rapid/tasks/" +:+ task +:+ "/motion/jointtarget")).
    rewrite Htr in Hf. cbn [fst] in Hf. now rewrite Hf.
  - unfold Rws2Ops.get_ramdisk_path. now rewrite reader_on_failure.
  - unfold Rws2Ops.get_execution_state. now rewrite reader_on_failure.
  - unfold Rws2Ops.get_controller_state. now rewrite reader_on_failure.
  - unfold Rws2Ops.get_operation_mode. now rewrite reader_on_failure.
  - exact Hio.
  - rewrite get_digital_io_run, Hio. reflexivity.
  - unfold get_rapid_variable. now rewrite reader_on_failure.
  - unfold read_event_log. now rewrite reader_on_failure.
  - unfold get_robtarget. now rewrite reader_on_failure.
  - unfold Rws2Ops.read_ipc_message. now rewrite reader_on_failure.
Qed.

Lemma readers_on_failed_get_witness :
  fst (get_tasks _ (always Failed) nowhere) = Ok [] /\
  fst (Rws2Ops.get_jointtarget _ (always Failed) _ Bench.np_array_int "T_ROB1" nowhere)
  = Raise (Exception "Failed to get joint target") /\
  fst (Rws2Ops.get_ramdisk_path _ (always Failed) nowhere) = Raise TypeError /\
  fst (Rws2Ops.get_execution_state _ (always Failed) nowhere) = Raise TypeError /\
  fst (Rws2Ops.get_controller_state _ (always Failed) nowhere) = Raise TypeError /\
  fst (Rws2Ops.get_operation_mode _ (always Failed) nowhere) = Raise TypeError /\
  fst (get_io _ (always Failed) "Auto" "IntBus" "IoPanel" nowhere) = Raise TypeError /\
  fst (get_digital_io _ (always Failed) "Auto" "IntBus" "IoPanel" nowhere)
  = Raise TypeError /\
  fst (get_rapid_variable _ (always Failed) "test_num" (Some "T_ROB1") nowhere)
  = Raise TypeError /\
  fst (read_event_log _ (always Failed) _ Bench.strptime_padded 0 nowhere)
  = Raise TypeError /\
  fst (get_robtarget _ (always Failed) _ Bench.np_array_int
         "ROB_1" "tool0" "wobj0" "Base" nowhere) = Raise TypeError /\
  fst (Rws2Ops.read_ipc_message _ (always Failed) Z Bench.str_of_float_int
         "MY_QUEUE" (Rws2Ops.NInt 0) nowhere) = Raise TypeError.
Proof.
  apply (readers_on_failed_get _ (always Failed) _ Bench.strptime_padded
           _ Bench.np_array_int Z Bench.str_of_float_int nowhere).
  intros u. reflexivity.
Defined.

(** ** Joint target *)

(** X8: when the GET delivers a JSON object, [get_jointtarget] raises
    [Exception("No joint target state found")] if the object has no [state]
    or an empty one, and it returns a [JointTarget] only if the first state
    yields the six robot axes and the six external axes, each group
    converted by [np.array]. *)
Theorem get_jointtarget_needs_a_state :
  forall W (tr : Request -> W -> Outcome * W) NdArray
         (np_array : list json -> result NdArray) task st o w' d,
    tr (get_request ("rw/rapid/tasks/" +:+ task +:+ "/motion/jointtarget")) (world st)
    = (o, w') ->
    get_value o = JObj d ->
    (match dict_get d "state" with
     | None =>
         fst (Rws2Ops.get_jointtarget W tr NdArray np_array task st)
         = Raise (Exception "No joint target state found")
     | Some s =>
         Rws2Ops.falsy s = true ->
         fst (Rws2Ops.get_jointtarget W tr NdArray np_array task st)
         = Raise (Exception "No joint target state found")
     end) /\
    (forall jt,
        fst (Rws2Ops.get_jointtarget W tr NdArray np_array task st) = Ok jt ->
        exists s joint_data,
          dict_get d "state" = Some s /\ getitem0 s = Ok joint_data /\
          np_group NdArray np_array joint_data Rws2Ops.robax_keys
          = Ok (Rws2Ops.robax jt) /\
          np_group NdArray np_array joint_data extax_keys = Ok (Rws2Ops.extax jt)).
Proof.
  intros W tr NdArray np_array task st o w' d Htr Hv.
  unfold Rws2Ops.get_jointtarget.
  rewrite (bind_ok _ _ _ _ _ (do_get_run _ _ _ _ _ Htr)), Hv.
  cbn [is_None lift fst Rws2Ops.get_state_list rbind]. split.
  - destruct (dict_get d "state") as [s|]; [|reflexivity].
    intros Hf. now rewrite Hf.
  - intros jt. destruct (dict_get d "state") as [s|]; [|discriminate].
    destruct (Rws2Ops.falsy s); [discriminate|].
    destruct (getitem0 s) as [joint_data|] eqn:H0; cbn [rbind]; [|discriminate].
    unfold Rws2Ops.jointtarget_of.
    destruct (np_group NdArray np_array joint_data Rws2Ops.robax_keys) as [a|] eqn:Ha;
      cbn [rbind]; [|discriminate].
    destruct (np_group NdArray np_array joint_data extax_keys) as [b|] eqn:Hb;
      cbn [rbind]; [|discriminate].
    intros H; inversion H; subst. exists s, joint_data. cbn. auto.
Qed.

Lemma get_jointtarget_needs_a_state_witness :
  (match dict_get [("state", JArr [])] "state" with
   | None =>
       fst (Rws2Ops.get_jointtarget _
              (always (Bench.reply 200 (JsonDoc (JObj [("state", JArr [])]))))
              _ Bench.np_array_int "T_ROB1" nowhere)
       = Raise (Exception "No joint target state found")
   | Some s =>
       Rws2Ops.falsy s = true ->
       fst (Rws2Ops.get_jointtarget _
              (always (Bench.reply 200 (JsonDoc (JObj [("state", JArr [])]))))
              _ Bench.np_array_int "T_ROB1" nowhere)
       = Raise (Exception "No joint target state found")
   end) /\
  (forall jt,
      fst (Rws2Ops.get_jointtarget _
             (always (Bench.reply 200 (JsonDoc (JObj [("state", JArr [])]))))
             _ Bench.np_array_int "T_ROB1" nowhere) = Ok jt ->
      exists s joint_data,
        dict_get [("state", JArr [])] "state" = Some s /\
        getitem0 s = Ok joint_data /\
        np_group _ Bench.np_array_int joint_data Rws2Ops.robax_keys
        = Ok (Rws2Ops.robax jt) /\
        np_group _ Bench.np_array_int joint_data extax_keys = Ok (Rws2Ops.extax jt)).
Proof.
  apply (get_jointtarget_needs_a_state _
           (always (Bench.reply 200 (JsonDoc (JObj [("state", JArr [])]))))
           _ Bench.np_array_int "T_ROB1" nowhere
           (Bench.reply 200 (JsonDoc (JObj [("state", JArr [])]))) tt
           [("state", JArr [])]);
    reflexivity.
Defined.

(** ** Mutations of one request *)



(** * The mock under any sequence of calls *)

Lemma dict_update_keys {V} (d : dict V) k f :
  dict_keys (Mock.dict_update d k f) = dict_keys d.
Proof.
  induction d as [|[k' v] d IH]; [reflexivity|]. cbn [Mock.dict_update].
  destruct (String.eqb k' k); cbn [dict_keys map fst]; [reflexivity|].
  unfold dict_keys in IH. now rewrite IH.
Qed.

Lemma dict_update_keyed d k b :
  Bench.keyed_by_name d ->
  Bench.keyed_by_name (Mock.dict_update d k (Mock.set_active b)).
Proof.
  unfold Bench.keyed_by_name.
  induction 1 as [|[k' v] d Hk Hd IH]; cbn [Mock.dict_update]; [constructor|].
  destruct (String.eqb k' k); constructor; auto.
Qed.

Lemma flip_task_keeps_table b task m :
  dict_keys (Mock._tasks (if b : bool then Mock.activate_task task m
                          else Mock.deactivate_task task m))
  = dict_keys (Mock._tasks m) /\
  (Bench.keyed_by_name (Mock._tasks m) ->
   Bench.keyed_by_name (Mock._tasks (if b then Mock.activate_task task m
                                     else Mock.deactivate_task task m))).
Proof.
  unfold Mock.activate_task, Mock.deactivate_task.
  destruct b, (dict_in task (Mock._tasks m)); cbn [Mock.with_tasks Mock._tasks];
    split; auto using dict_update_keys, dict_update_keyed.
Qed.

Lemma init_satisfies_invariant {F} (zero : F) :
  mock_invariant (MockFull.init F zero).
Proof.
  unfold mock_invariant. cbn. repeat split; auto; try lia.
  - intros s v H.
    repeat (apply lookup_insert_Some in H as [[_ <-]|[_ H]]; [auto|]).
    rewrite lookup_empty in H. discriminate.
  - repeat constructor.
Qed.

Lemma after_keeps_invariant {F} (zero : F) str_of_float float_of_int encode c m :
  mock_invariant m ->
  mock_invariant (MockFull.after F str_of_float float_of_int encode c m).
Proof.
  intros (Hsr & Hcs & Hes & Hop & Hdio & Hkeys & Hkeyed).
  destruct c; cbn [MockFull.after]; unfold mock_invariant.
  - unfold MockFull.start, Mock.start.
    destruct (negb (String.eqb (Mock._controller_state (MockFull.base m)) "motoron"));
      cbn; auto 10.
  - cbn. auto 10.
  - cbn. auto 10.
  - unfold MockFull.set_controller_state.
    destruct (str_in ctrl_state ["motoron"; "motoroff"]) eqn:E;
      cbn [negb MockFull.kept]; [|auto 10].
    apply str_in_In in E. cbn.
    destruct E as [<-|[<-|[]]]; repeat split; auto; lia.
  - cbn. auto 10.
  - cbn. auto 10.
  - unfold MockFull.set_speedratio.
    destruct ((0 <=? speedratio)%Z && (speedratio <=? 100)%Z) eqn:E; cbn; [|auto 10].
    apply andb_true_iff in E as [E1 E2]. apply Z.leb_le in E1, E2. auto 10.
  - destruct (flip_task_keeps_table true task (MockFull.base m)) as [Hk1 Hk2].
    cbn [MockFull.on_base MockFull.with_base MockFull.base MockFull._speedratio].
    cbn in Hk1, Hk2. rewrite Hk1.
    unfold Mock.activate_task in *.
    destruct (dict_in task (Mock._tasks (MockFull.base m))); cbn in *; auto 10.
  - destruct (flip_task_keeps_table false task (MockFull.base m)) as [Hk1 Hk2].
    cbn [MockFull.on_base MockFull.with_base MockFull.base MockFull._speedratio].
    cbn in Hk1, Hk2. rewrite Hk1.
    unfold Mock.deactivate_task in *.
    destruct (dict_in task (Mock._tasks (MockFull.base m))); cbn in *; auto 10.
  - cbn. repeat split; auto; try lia.
    intros s v H. apply lookup_insert_Some in H as [[_ <-]|[_ H]]; [|eauto].
    destruct (value =? 0)%Z; auto.
  - unfold MockFull.set_analog_io.
    destruct (MockFull.py_float F float_of_int value); cbn; auto 10.
  - cbn. auto 10.
  - cbn. auto 10.
  - unfold MockFull.delete_file.
    destruct (MockFull._files m !! MockFull._resolve_path filename directory);
      cbn; auto 10.
Qed.

(** X10: whatever calls are made on a fresh mock, in whatever order and with
    whatever arguments, the speed ratio stays within 0..100, the controller
    state is [motoron] or [motoroff], the execution state is [stopped] or
    [running], the operation mode stays [AUTO], every digital signal holds 0
    or 1, and the task table keeps its one task T_ROB1 under its name. *)
Theorem mock_keeps_its_invariant :
  forall F (zero : F) (str_of_float : F -> string) (float_of_int : Z -> option F)
         (encode : string -> MockFull.bytes) calls,
    mock_invariant
      (MockFull.after_all F str_of_float float_of_int encode calls
         (MockFull.init F zero)).
Proof.
  intros F zero str_of_float float_of_int encode calls. unfold MockFull.after_all.
  generalize (init_satisfies_invariant zero).
  generalize (MockFull.init F zero) as m.
  induction calls as [|c calls IH]; intros m Hm; cbn [fold_left]; [exact Hm|].
  apply IH. now apply (after_keeps_invariant zero).
Qed.

(** ** Execution on the mock *)

(** X11: on the mock, [start] works exactly when the controller state is
    [motoron]: after [set_motors_on] it succeeds from any state and the
    execution state reads [running] (cycle [forever]) until [stop];
    [set_motors_off] does not stop a running program; and with any other
    controller state [start] raises [RuntimeError] and changes nothing. *)
Theorem mock_start_needs_motors_on :
  forall F (m : MockFull.RWSMock F) cycle tasks,
    (exists m',
        MockFull.start F cycle tasks (MockFull.set_motors_on F m) = Ok m' /\
        MockFull.get_execution_state F m' = ("running", "forever") /\
        MockFull.get_execution_state F (MockFull.set_motors_off F m')
        = ("running", "forever") /\
        MockFull.get_execution_state F (MockFull.stop F m') = ("stopped", "forever")) /\
    (MockFull.get_controller_state F m <> "motoron" ->
     MockFull.start F cycle tasks m
     = Raise (RuntimeError "Cannot start execution: controller is not in 'motoron' state")).
Proof.
  intros F m cycle tasks. split.
  - eexists. repeat split.
  - intros Hne. unfold MockFull.start, Mock.start, MockFull.get_controller_state in *.
    apply String.eqb_neq in Hne. now rewrite Hne.
Qed.

(** ** Tasks on the mock *)

Lemma dict_get_update {V} (d : dict V) k k' f :
  dict_get (Mock.dict_update d k f) k'
  = if String.eqb k k' then option_map f (dict_get d k') else dict_get d k'.
Proof.
  induction d as [|[k0 v] d IH]; cbn [Mock.dict_update dict_get].
  - now destruct (String.eqb k k').
  - destruct (String.eqb_spec k0 k) as [->|Hne]; cbn [dict_get].
    + destruct (String.eqb k k'); reflexivity.
    + rewrite IH. destruct (String.eqb_spec k k') as [->|]; [|reflexivity].
      apply String.eqb_neq in Hne. now rewrite Hne.
Qed.

(** X12: on the mock, [activate_task] and [deactivate_task] set the flag of
    the named task and of no other, keep the names and the order of the
    table, and do nothing at all, silently, for a name that is not in it. *)
Theorem mock_task_flag_is_set_for_one_task :
  forall (b : bool) task m,
    let m' := if b then Mock.activate_task task m else Mock.deactivate_task task m in
    (forall k,
        dict_get (Mock._tasks m') k
        = if String.eqb task k
          then option_map (Mock.set_active b) (dict_get (Mock._tasks m) k)
          else dict_get (Mock._tasks m) k) /\
    dict_keys (Mock._tasks m') = dict_keys (Mock._tasks m) /\
    (dict_in task (Mock._tasks m) = false -> m' = m).
Proof.
  intros b task m m'. subst m'. split; [|split].
  - intros k. unfold Mock.activate_task, Mock.deactivate_task, dict_in.
    destruct b, (dict_get (Mock._tasks m) task) eqn:E;
      cbn [Mock.with_tasks Mock._tasks]; rewrite ?dict_get_update; try reflexivity;
      destruct (String.eqb_spec task k) as [<-|]; try reflexivity; now rewrite E.
  - apply flip_task_keeps_table.
  - intros H. unfold Mock.activate_task, Mock.deactivate_task. rewrite H.
    now destruct b.
Qed.

(** ** Files on the mock *)

Lemma rstrip_slash_slash d :
  MockFull.rstrip_slash (d +:+ "/") = MockFull.rstrip_slash d.
Proof.
  induction d as [|c d IH]; [reflexivity|].
  change (String c d +:+ "/") with (String c (d +:+ "/")).
  cbn [MockFull.rstrip_slash]. now rewrite IH.
Qed.

(** X13: on the mock, a file reads back as it was uploaded (text as its
    encoding) and other paths are untouched; once deleted, [read_file] raises
    [FileNotFoundError] naming the path, while [read_file_str] returns that
    message as if it were the text of the file. *)
Theorem mock_file_round_trip :
  forall F (encode : string -> MockFull.bytes)
         (decode : MockFull.bytes -> option string)
         filename directory content (m : MockFull.RWSMock F),
    let path := MockFull._resolve_path filename directory in
    MockFull.read_file F filename directory
      (MockFull.upload_file F encode filename content directory m)
    = inr (match content with inl s => encode s | inr b => b end) /\
    (forall f d,
        MockFull._resolve_path f d <> path ->
        MockFull.read_file F f d
          (MockFull.upload_file F encode filename content directory m)
        = MockFull.read_file F f d m) /\
    MockFull.read_file F filename directory (MockFull.delete_file F filename directory m)
    = inl (MockFull.FileNotFoundError ("Path does not exist: " +:+ path)) /\
    MockFull.read_file_str F decode filename directory
      (MockFull.delete_file F filename directory m)
    = inr ("Path does not exist: " +:+ path) /\
    (forall s,
        decode (encode s) = Some s ->
        MockFull.read_file_str F decode filename directory
          (MockFull.upload_file F encode filename (inl s) directory m)
        = inr s).
Proof.
  intros F encode decode filename directory content m path. subst path.
  assert (forall c,
             MockFull.read_file F filename directory
               (MockFull.upload_file F encode filename c directory m)
             = inr (match c with inl s => encode s | inr b => b end)) as Hup.
  { intros c. unfold MockFull.read_file, MockFull.upload_file. cbn.
    now rewrite lookup_insert_eq. }
  assert (MockFull.read_file F filename directory
            (MockFull.delete_file F filename directory m)
          = inl (MockFull.FileNotFoundError
                   ("Path does not exist: "
                    +:+ MockFull._resolve_path filename directory))) as Hdel.
  { unfold MockFull.read_file, MockFull.delete_file.
    destruct (MockFull._files m !! MockFull._resolve_path filename directory) eqn:E;
      cbn; [now rewrite lookup_delete_eq | now rewrite E]. }
  repeat split.
  - apply Hup.
  - intros f d Hne. unfold MockFull.read_file, MockFull.upload_file. cbn.
    rewrite lookup_insert_ne by congruence. reflexivity.
  - exact Hdel.
  - unfold MockFull.read_file_str. now rewrite Hdel.
  - intros s Hs. unfold MockFull.read_file_str. rewrite Hup. now rewrite Hs.
Qed.

(** X14: on the mock, with a directory given, slashes at the end of the
    directory and at the start of the file name do not matter: a file
    uploaded as [/name] under [dir/] is the file [name] under [dir]. Without a
    directory the name is the path as it stands. *)
Theorem mock_path_ignores_joining_slashes :
  forall F (encode : string -> MockFull.bytes) filename directory content
         (m : MockFull.RWSMock F),
    directory <> "" ->
    MockFull._resolve_path ("/" +:+ filename) (Some (directory +:+ "/"))
    = MockFull._resolve_path filename (Some directory) /\
    MockFull.read_file F filename (Some directory)
      (MockFull.upload_file F encode ("/" +:+ filename) content
         (Some (directory +:+ "/")) m)
    = inr (match content with inl s => encode s | inr b => b end) /\
    MockFull._resolve_path filename None = filename /\
    MockFull._resolve_path filename (Some "") = filename.
Proof.
  intros F encode filename directory content m Hd.
  assert (MockFull._resolve_path ("/" +:+ filename) (Some (directory +:+ "/"))
          = MockFull._resolve_path filename (Some directory)) as Hp.
  { unfold MockFull._resolve_path.
    apply String.eqb_neq in Hd. rewrite Hd.
    destruct directory as [|c d]; [discriminate|].
    change (String c d +:+ "/") with (String c (d +:+ "/")).
    cbn [String.eqb]. rewrite <- (rstrip_slash_slash (String c d)).
    reflexivity. }
  repeat split; [exact Hp|].
  unfold MockFull.read_file, MockFull.upload_file. cbn [MockFull._files MockFull.with_files].
  rewrite Hp. now rewrite lookup_insert_eq.
Qed.

Lemma mock_path_ignores_joining_slashes_witness :
  MockFull._resolve_path ("/" +:+ "motion_program_exec.mod") (Some ("/TEMP" +:+ "/"))
  = MockFull._resolve_path "motion_program_exec.mod" (Some "/TEMP") /\
  MockFull.read_file Z "motion_program_exec.mod" (Some "/TEMP")
    (MockFull.upload_file Z list_byte_of_string ("/" +:+ "motion_program_exec.mod")
       (inl "MODULE m ENDMODULE") (Some ("/TEMP" +:+ "/")) (MockFull.init Z 0%Z))
  = inr (match (inl "MODULE m ENDMODULE" : string + MockFull.bytes) with
         | inl s => list_byte_of_string s
         | inr b => b
         end) /\
  MockFull._resolve_path "motion_program_exec.mod" None = "motion_program_exec.mod" /\
  MockFull._resolve_path "motion_program_exec.mod" (Some "") = "motion_program_exec.mod".
Proof.
  apply (mock_path_ignores_joining_slashes Z list_byte_of_string
           "motion_program_exec.mod" "/TEMP" (inl "MODULE m ENDMODULE")
           (MockFull.init Z 0%Z)).
  discriminate.
Defined.

(** ** Variables and signals on the mock *)

(** X15: on the mock, a variable that was never set reads ["0"]; setting one
    variable leaves every variable with another qualified name as it was; and
    no task, the empty task and a name that already carries its task are one
    and the same addressing. *)
Theorem mock_rapid_variables_are_independent :
  forall F (str_of_float : F -> string) var task value var' task' m,
    Mock._qualify_var var task <> Mock._qualify_var var' task' ->
    Mock.get_rapid_variable var' task'
      (Mock.set_rapid_variable F str_of_float var value task m)
    = Mock.get_rapid_variable var' task' m /\
    (Mock._rapid m !! Mock._qualify_var var task = None ->
     Mock.get_rapid_variable var task m = "0") /\
    Mock.get_rapid_variable var (Some "")
      (Mock.set_rapid_variable F str_of_float var value None m)
    = Mock.py_str F str_of_float value /\
    (forall t, t <> "" ->
        Mock.get_rapid_variable (t +:+ "/" +:+ var) None
          (Mock.set_rapid_variable F str_of_float var value (Some t) m)
        = Mock.py_str F str_of_float value).
Proof.
  intros F str_of_float var task value var' task' m Hne. repeat split.
  - unfold Mock.get_rapid_variable, Mock.set_rapid_variable. cbn.
    now rewrite lookup_insert_ne.
  - intros H. unfold Mock.get_rapid_variable. now rewrite H.
  - unfold Mock.get_rapid_variable, Mock.set_rapid_variable. cbn.
    now rewrite lookup_insert_eq.
  - intros t Ht. unfold Mock.get_rapid_variable, Mock.set_rapid_variable,
      Mock._qualify_var. cbn [Mock._rapid Mock.with_rapid].
    apply String.eqb_neq in Ht. rewrite Ht. now rewrite lookup_insert_eq.
Qed.

Lemma mock_rapid_variables_are_independent_witness :
  Mock.get_rapid_variable "MOTION_PROGRAM_CMD_MOVEL" (Some "T_ROB1")
    (Mock.set_rapid_variable Z Bench.str_of_float_int "counter" (Mock.VInt 42)
       (Some "T_ROB1") Mock.init)
  = Mock.get_rapid_variable "MOTION_PROGRAM_CMD_MOVEL" (Some "T_ROB1") Mock.init /\
  (Mock._rapid Mock.init !! Mock._qualify_var "counter" (Some "T_ROB1") = None ->
   Mock.get_rapid_variable "counter" (Some "T_ROB1") Mock.init = "0") /\
  Mock.get_rapid_variable "counter" (Some "")
    (Mock.set_rapid_variable Z Bench.str_of_float_int "counter" (Mock.VInt 42)
       None Mock.init)
  = Mock.py_str Z Bench.str_of_float_int (Mock.VInt 42) /\
  (forall t, t <> "" ->
      Mock.get_rapid_variable (t +:+ "/" +:+ "counter") None
        (Mock.set_rapid_variable Z Bench.str_of_float_int "counter" (Mock.VInt 42)
           (Some t) Mock.init)
      = Mock.py_str Z Bench.str_of_float_int (Mock.VInt 42)).
Proof.
  apply (mock_rapid_variables_are_independent Z Bench.str_of_float_int
           "counter" (Some "T_ROB1") (Mock.VInt 42)
           "MOTION_PROGRAM_CMD_MOVEL" (Some "T_ROB1") Mock.init).
  discriminate.
Defined.

(** X16: on the mock, a digital signal reads back 0 for a written [0] or
    [False] and 1 for anything else, and an analog signal reads back
    [float(value)] of the value written: a float as it is, an int as the
    float it converts to, while an int too large for a float makes the write
    raise [OverflowError]. Network and unit play no part in either call; a
    write leaves every other signal as it was, and a signal never written
    reads 0. *)
Theorem mock_signals_read_back :
  forall F (zero : F) (float_of_int : Z -> option F) signal value x z n u n' u' other
         (m : Mock.RWSMock) (mf : MockFull.RWSMock F),
    other <> signal ->
    Mock.get_digital_io signal n u (Mock.set_digital_io signal value n' u' m)
    = (if (value =? 0)%Z then 0%Z else 1%Z) /\
    Mock.get_digital_io other n u (Mock.set_digital_io signal value n' u' m)
    = Mock.get_digital_io other n u m /\
    (Mock._dio m !! signal = None -> Mock.get_digital_io signal n u m = 0%Z) /\
    (exists mf',
        MockFull.set_analog_io F float_of_int signal (Rws2Ops.NFloat x) n' u' mf
        = Ok mf' /\
        MockFull.get_analog_io F zero signal n u mf' = x /\
        MockFull.get_analog_io F zero other n u mf'
        = MockFull.get_analog_io F zero other n u mf) /\
    match float_of_int z with
    | Some y =>
        exists mf',
          MockFull.set_analog_io F float_of_int signal (Rws2Ops.NInt z) n' u' mf
          = Ok mf' /\
          MockFull.get_analog_io F zero signal n u mf' = y /\
          MockFull.get_analog_io F zero other n u mf'
          = MockFull.get_analog_io F zero other n u mf
    | None =>
        MockFull.set_analog_io F float_of_int signal (Rws2Ops.NInt z) n' u' mf
        = Raise OverflowError
    end /\
    (MockFull._aio mf !! signal = None ->
     MockFull.get_analog_io F zero signal n u mf = zero).
Proof.
  intros F zero float_of_int signal value x z n u n' u' other m mf Hne.
  unfold Mock.get_digital_io, Mock.set_digital_io, MockFull.get_analog_io,
    MockFull.set_analog_io. cbn [MockFull.py_float rbind of_option].
  split; [|split; [|split; [|split; [|split]]]].
  - cbn. now rewrite lookup_insert_eq.
  - cbn. now rewrite lookup_insert_ne by congruence.
  - intros H. now rewrite H.
  - eexists. split; [reflexivity|]. cbn.
    now rewrite lookup_insert_eq, lookup_insert_ne by congruence.
  - destruct (float_of_int z) as [y|]; cbn [of_option rbind]; [|reflexivity].
    eexists. split; [reflexivity|]. cbn.
    now rewrite lookup_insert_eq, lookup_insert_ne by congruence.
  - intros H. now rewrite H.
Qed.

Lemma mock_signals_read_back_witness :
  let big := (2 ^ 53 + 1)%Z in
  Mock.get_digital_io "do_gripper" "" ""
    (Mock.set_digital_io "do_gripper" 5 "Local" "DRV_1" Mock.init)
  = (if (5 =? 0)%Z then 0%Z else 1%Z) /\
  Mock.get_digital_io "Auto" "" ""
    (Mock.set_digital_io "do_gripper" 5 "Local" "DRV_1" Mock.init)
  = Mock.get_digital_io "Auto" "" "" Mock.init /\
  (Mock._dio Mock.init !! "do_gripper" = None ->
   Mock.get_digital_io "do_gripper" "" "" Mock.init = 0%Z) /\
  (exists mf',
      MockFull.set_analog_io Z Bench.float_of_int_rounded "do_gripper"
        (Rws2Ops.NFloat 7%Z) "Local" "DRV_1" (MockFull.init Z 0%Z) = Ok mf' /\
      MockFull.get_analog_io Z 0%Z "do_gripper" "" "" mf' = 7%Z /\
      MockFull.get_analog_io Z 0%Z "Auto" "" "" mf'
      = MockFull.get_analog_io Z 0%Z "Auto" "" "" (MockFull.init Z 0%Z)) /\
  match Bench.float_of_int_rounded big with
  | Some y =>
      exists mf',
        MockFull.set_analog_io Z Bench.float_of_int_rounded "do_gripper"
          (Rws2Ops.NInt big) "Local" "DRV_1" (MockFull.init Z 0%Z) = Ok mf' /\
        MockFull.get_analog_io Z 0%Z "do_gripper" "" "" mf' = y /\
        MockFull.get_analog_io Z 0%Z "Auto" "" "" mf'
        = MockFull.get_analog_io Z 0%Z "Auto" "" "" (MockFull.init Z 0%Z)
  | None =>
      MockFull.set_analog_io Z Bench.float_of_int_rounded "do_gripper"
        (Rws2Ops.NInt big) "Local" "DRV_1" (MockFull.init Z 0%Z)
      = Raise OverflowError
  end /\
  (MockFull._aio (MockFull.init Z 0%Z) !! "do_gripper" = None ->
   MockFull.get_analog_io Z 0%Z "do_gripper" "" "" (MockFull.init Z 0%Z) = 0%Z).
Proof.
  apply (mock_signals_read_back Z 0%Z Bench.float_of_int_rounded "do_gripper" 5%Z
           7%Z (2 ^ 53 + 1)%Z "" "" "Local" "DRV_1" "Auto" Mock.init
           (MockFull.init Z 0%Z)).
  discriminate.
Defined.

(** An integer with more than 53 significant bits does not read back as
    itself, and one from [2 ** 1024] on cannot be written. *)
Example float_of_int_rounded_examples :
  Bench.float_of_int_rounded 7 = Some 7%Z /\
  Bench.float_of_int_rounded (2 ^ 53 + 1) = Some (2 ^ 53)%Z /\
  Bench.float_of_int_rounded (2 ^ 53 + 3) = Some (2 ^ 53 + 4)%Z /\
  Bench.float_of_int_rounded (- (2 ^ 53 + 1)) = Some (- 2 ^ 53)%Z /\
  Bench.float_of_int_rounded (2 ^ 1024) = None.
Proof. repeat split; vm_compute; reflexivity. Qed.

(** ** Addressing in RWS2 *)

Lemma str_app_length_ne (a b c : string) :
  String.length a <> String.length b -> c +:+ a <> c +:+ b.
Proof.
  intros Hl H. apply String.app_inj in H. now subst.
Qed.

(** X17: with a task name, [set_rapid_variable] writes to the URL that
    [get_rapid_variable] reads. Without one ([None]) they part: the write
    leaves the task out of the path and the read puts the text [None] in its
    place, so it never reads what was written. *)
Theorem rws2_variable_urls :
  forall var,
    (forall t, rapid_set_url var (Some t) = rapid_get_url var (Some t)) /\
    rapid_set_url var None <> rapid_get_url var None /\
    rapid_get_url var None = rapid_get_url var (Some "None").
Proof.
  intros var. split; [|split].
  - intros t. unfold rapid_set_url, rapid_get_url, fmt_opt.
    now rewrite !str_app_assoc.
  - unfold rapid_set_url, rapid_get_url, fmt_opt.
    apply str_app_length_ne. rewrite !str_length_app. cbn. lia.
  - reflexivity.
Qed.

(** X18: [set_digital_io] always addresses a signal by network and unit,
    [get_io] only when both are non-empty. So a write and a read with the same
    arguments address the same resource exactly when both are given; with
    either one empty the read falls back to the bare name and the write does
    not. *)
Theorem rws2_signal_read_and_write_urls :
  forall W (tr : Request -> W -> Outcome * W) signal value network unit st,
  exists u_write u_read lvalue,
    sent (snd (Rws2Ops.set_digital_io W tr signal value network unit st))
    = sent st ++ [post_request (u_write +:+ "?mastership=implicit")
                    (Some [("lvalue", lvalue)])] /\
    sent (snd (get_io W tr signal network unit st))
    = sent st ++ [get_request u_read] /\
    (u_write = u_read <-> network <> "" /\ unit <> "").
Proof.
  intros W tr signal value network unit st.
  exists ("rw/iosystem/signals/" +:+ network +:+ "/" +:+ unit +:+ "/" +:+ signal),
    (signal_url signal network unit), (if (value =? 0)%Z then "0" else "1").
  split; [|split].
  - unfold Rws2Ops.set_digital_io. rewrite post_only_run. cbn [snd sent].
    now rewrite !str_app_assoc.
  - unfold get_io.
    destruct (tr (get_request (signal_url signal network unit)) (world st))
      as [o w'] eqn:Htr.
    rewrite (bind_ok _ _ _ _ _ (do_get_run _ _ _ _ _ Htr)).
    unfold lift. now destruct (signal_lvalue (get_value o)).
  - unfold signal_url, truthy.
    destruct (String.eqb_spec network "") as [->|Hn];
      destruct (String.eqb_spec unit "") as [->|Hu]; cbn [negb andb].
    + split; [|intros [[] _]; reflexivity]. intros H. exfalso. revert H.
      apply str_app_length_ne. cbn. rewrite ?str_length_app. cbn. lia.
    + split; [|intros [[] _]; reflexivity]. intros H. exfalso. revert H.
      apply str_app_length_ne. cbn. rewrite ?str_length_app. cbn. lia.
    + split; [|intros [_ []]; reflexivity]. intros H. exfalso. revert H.
      apply str_app_length_ne. rewrite ?str_length_app. cbn. lia.
    + split; auto.
Qed.
